(** * Grid-search drivers of ComplexCNN.py and test_hyperparameters.py

    A shallow embedding of the two scripts of the repository.  The numerical
    work (tensors, autograd, optimizers, data sets, plotting) belongs to
    torch, torchvision and matplotlib; it enters the model through the
    [Env] interface below.  What the repository itself contributes (the
    epoch loops, the accuracy arithmetic, the enumeration of the grid, the
    result records, the best-so-far selection, the exceptions it raises and
    the text it prints and logs) is written out as in the source.

    Python statements are computations in a state-and-exception monad.  The
    state survives an exception: what was printed or written to output.txt
    before a raise stays printed and written. *)

From Stdlib Require Import ZArith QArith Qround String Ascii Bool Lia List.
From Stdlib Require Import DecimalString.
Import ListNotations.

Set Implicit Arguments.

(** ** Python values, exceptions and dictionaries *)

Module Py.

(** The exceptions the two scripts can raise on their own. *)
Inductive exn : Type :=
| ValueError (msg : string)
| KeyError (key : string)
| TypeError (msg : string)
| AttributeError (msg : string)
| ZeroDivisionError.

(** The values a hyperparameter grid holds. *)
Inductive pyval : Type :=
| PNone
| PBool (b : bool)
| PInt (z : Z)
| PFloat (q : Q)
| PStr (s : string).

(** [v == "lit"] for a string literal: false when [v] is not a string. *)
Definition eq_str (v : pyval) (lit : string) : bool :=
  match v with PStr s => String.eqb s lit | _ => false end.

(** A dict in insertion order; keys are kept unique by [dict_set]. *)
Definition dict (V : Type) : Type := list (string * V).

Fixpoint dict_get {V} (d : dict V) (k : string) : option V :=
  match d with
  | [] => None
  | (k', v) :: d' => if String.eqb k' k then Some v else dict_get d' k
  end.

(** [d[k] = v]: an existing key keeps its position, a new one goes last. *)
Fixpoint dict_set {V} (d : dict V) (k : string) (v : V) : dict V :=
  match d with
  | [] => [(k, v)]
  | (k', v') :: d' =>
      if String.eqb k' k then (k', v) :: d' else (k', v') :: dict_set d' k v
  end.

Definition dict_keys {V} (d : dict V) : list string := map fst d.

(** [dict(pairs)]: later pairs overwrite earlier ones with the same key. *)
Definition dict_of {V} (pairs : list (string * V)) : dict V :=
  fold_left (fun d kv => dict_set d (fst kv) (snd kv)) pairs [].

(** [itertools.product] of the lists [ls]: the last list varies fastest. *)
Fixpoint product {A} (ls : list (list A)) : list (list A) :=
  match ls with
  | [] => [[]]
  | l :: ls' => flat_map (fun x => map (cons x) (product ls')) l
  end.

(** [range(n)]: empty when [n <= 0]. *)
Definition range (n : Z) : list Z := map Z.of_nat (seq 0 (Z.to_nat n)).

(** [l.index(x)] with the equality test [eqb]; [None] stands for the
    ValueError of a missing element. *)
Fixpoint index {A} (eqb : A -> A -> bool) (l : list A) (x : A) : option nat :=
  match l with
  | [] => None
  | y :: l' => if eqb y x then Some O
               else match index eqb l' x with Some i => Some (S i) | None => None end
  end.

(** [ll[i].append(x)] on a list of lists. *)
Fixpoint append_at {A} (ll : list (list A)) (i : nat) (x : A) : list (list A) :=
  match ll, i with
  | [], _ => []
  | l :: ll', O => (l ++ [x]) :: ll'
  | l :: ll', S i' => l :: append_at ll' i' x
  end.

Definition str_int (z : Z) : string := NilZero.string_of_int (Z.to_int z).

Definition product_of_sizes {A} (ls : list (list A)) : nat :=
  fold_right (fun l n => (length l * n)%nat) 1%nat ls.

End Py.
Import Py.

(** ** The environment: Python floats, torch, torchvision, matplotlib *)

Inductive model_kind : Type := SimpleCNN | RegNetX | ComplexCNN | CNN.

(** [optim.Adam(model.parameters(), lr=lr)] and
    [optim.SGD(model.parameters(), lr=lr[, momentum=m])]. *)
Inductive optim_spec : Type :=
| Adam (lr : pyval)
| SGD (lr : pyval) (momentum : option Q).

Inductive open_mode : Type := ModeW | ModeA.

(** What a [DataLoader] is built over: a data set, or (as in
    [hyperparameter_tuning]) the list that [random_split] returned. *)
Inductive data_source (D : Type) : Type :=
| OneSet (d : D)
| SetList (l : list D).

(** Everything a run does to the outside, in the order it happens. *)
Inductive event : Type :=
| EPrint (s : string)                       (* print(s) *)
| EOpen (mode : open_mode)                  (* open('output.txt', mode) *)
| EWrite (s : string)                       (* print(s, file=file) *)
| ENewModel (k : model_kind)
| EDataset (train : bool)
| ELoader (batch_size : pyval) (shuffle : bool)
| ESplit
| EOptimizer (o : optim_spec)
| EToDevice
| EMode (training : bool)                   (* model.train() / model.eval() *)
| EIterate                                  (* one pass over a loader *)
| ETrainStep                                (* forward, backward, optimizer.step() *)
| EEvalStep                                 (* forward under no_grad *)
| EPlot.

Class Env : Type := {
  (** hidden state of the libraries: weights, random generators, files *)
  World : Type;
  Net : Type;
  Dataset : Type;
  Loader : Type;
  Batch : Type;
  Optimizer : Type;
  (** a loss value, as [loss.item()] returns it: may be inf or nan *)
  float : Type;
  fzero : float;
  fadd : float -> float -> float;
  (** [x / n] for a float [x] and a non-zero int [n] *)
  fdiv_int : float -> Z -> float;
  (** rounding of an exact quotient or product to the nearest binary64;
      accuracies are quotients of ints and stay finite *)
  round64 : Q -> Q;
  (** [f'{x}'], [f'{x:.2f}'] and [f'{x:.4f}'] *)
  repr_float : Q -> string;
  fixed : nat -> Q -> string;
  fixed_loss : nat -> float -> string;
  (** torch and torchvision *)
  new_model : model_kind -> World -> Net * World;
  to_device : Net -> World -> Net * World;
  set_training : Net -> bool -> World -> unit * World;
  CIFAR10 : bool -> World -> Dataset * World;
  classes : Dataset -> list string;
  DataLoader : data_source Dataset -> pyval -> bool -> World -> Loader * World;
  loader_dataset : Loader -> Dataset;
  dataset_len : Dataset -> nat;
  random_split : Dataset -> list Z -> World -> list Dataset * World;
  new_optimizer : Net -> optim_spec -> World -> Optimizer * World;
  iter_loader : Loader -> World -> list Batch * World;
  len_loader : Loader -> nat;
  (** [labels.size(0)] *)
  labels_size : Batch -> nat;
  (** one training step on a batch: [loss.item()] and
      [(predicted == labels).sum().item()] *)
  train_step : Net -> Optimizer -> Batch -> World -> (float * nat) * World;
  (** the same under [model.eval()] and [torch.no_grad()] *)
  eval_step : Net -> Batch -> World -> (float * nat) * World;
  (** the figure of [plot_hyperparams] *)
  show_plots : list (list Q) -> list (list Q) -> list (list Q) -> World -> unit * World
}.

(** What the accuracy arithmetic needs of binary64 rounding: it is
    monotone and leaves 0, 1 and 100 alone. *)
Class Round64Laws (E : Env) : Prop := {
  round64_mono : forall x y : Q, x <= y -> round64 x <= round64 y;
  round64_0 : round64 0 == 0;
  round64_1 : round64 1 == 1;
  round64_100 : round64 100 == 100
}.

(** A batch never has more correct predictions than labels. *)
Definition CountLaw (E : Env) : Prop :=
  forall (net : Net) (b : Batch) (w : World),
    (snd (fst (eval_step net b w)) <= labels_size b)%nat.

(** ** The state-and-exception monad *)

Inductive res (A : Type) : Type :=
| Ok (a : A)
| Raise (e : exn).
Arguments Raise {A} e.
Arguments Ok {A} a.

Section Monad.
Context {E : Env}.

(** [history] is kept newest first. *)
Record state : Type := mkState {
  world : World;
  output_txt : string;
  history : list event
}.

Definition M (A : Type) : Type := state -> res A * state.

Definition ret {A} (a : A) : M A := fun st => (Ok a, st).

Definition raise {A} (e : exn) : M A := fun st => (Raise e, st).

Definition bind {A B} (m : M A) (k : A -> M B) : M B :=
  fun st =>
    match m st with
    | (Ok a, st') => k a st'
    | (Raise e, st') => (Raise e, st')
    end.

Definition log (ev : event) : M unit :=
  fun st => (Ok tt, mkState (world st) (output_txt st) (ev :: history st)).

(** A call into the libraries: it is recorded and acts on the world
    only. *)
Definition call {A} (ev : event) (f : World -> A * World) : M A :=
  fun st =>
    (Ok (fst (f (world st))),
     mkState (snd (f (world st))) (output_txt st) (ev :: history st)).

Definition print (s : string) : M unit := log (EPrint s).

(** [open('output.txt', 'w')] truncates; [open('output.txt', 'a')] keeps
    the contents. *)
Definition open_output (mode : open_mode) : M unit :=
  fun st =>
    (Ok tt,
     mkState (world st)
             (match mode with ModeW => EmptyString | ModeA => output_txt st end)
             (EOpen mode :: history st)).

(** [print(s, file=file)]: the text and a newline go to the end. *)
Definition print_file (s : string) : M unit :=
  fun st =>
    (Ok tt,
     mkState (world st)
             (output_txt st ++ s ++ String "010" EmptyString)
             (EWrite s :: history st)).

(** [for x in xs: body], the loop variables threaded as [acc]. *)
Fixpoint for_each {A B} (xs : list A) (body : A -> B -> M B) (acc : B) : M B :=
  match xs with
  | [] => ret acc
  | x :: xs' => bind (body x acc) (for_each xs' body)
  end.

(** [a / b] on ints: the exact quotient rounded once. *)
Definition truediv (a b : Z) : M Q :=
  if (b =? 0)%Z then raise ZeroDivisionError
  else ret (round64 (inject_Z a / inject_Z b)).

(** [x / n] for a float [x] and an int [n]. *)
Definition fdiv (x : float) (n : Z) : M float :=
  if (n =? 0)%Z then raise ZeroDivisionError else ret (fdiv_int x n).

(** [int(x)] truncates towards zero. *)
Definition int_of_float (q : Q) : Z :=
  if Qle_bool 0 q then Qfloor q else Qceiling q.

End Monad.

Declare Scope py_scope.
Delimit Scope py_scope with py.
Notation "x <- m ;; k" := (bind m (fun x => k))
  (at level 100, m at next level, right associativity) : py_scope.
Notation "' pat <- m ;; k" := (bind m (fun x => match x with pat => k end))
  (at level 100, pat pattern, m at next level, right associativity) : py_scope.
Notation "m ;;; k" := (bind m (fun _ => k))
  (at level 100, right associativity) : py_scope.
Open Scope py_scope.
Open Scope list_scope.
Open Scope string_scope.

Definition nl : string := String "010" EmptyString.

(** [a < b] on finite floats. *)
Definition Qltb (a b : Q) : bool := negb (Qle_bool b a).

Section Formatting.
Context {E : Env}.

(** [repr(v)]; a string is shown between single quotes, which is what
    Python prints for a string with no quote or escape in it. *)
Definition repr_val (v : pyval) : string :=
  match v with
  | PNone => "None"
  | PBool true => "True"
  | PBool false => "False"
  | PInt z => str_int z
  | PFloat q => repr_float q
  | PStr s => "'" ++ s ++ "'"
  end.

(** [str(v)], as an f-string field shows it. *)
Definition str_val (v : pyval) : string :=
  match v with PStr s => s | _ => repr_val v end.

Definition repr_dict (d : dict pyval) : string :=
  "{" ++ String.concat ", "
           (map (fun kv => "'" ++ fst kv ++ "': " ++ repr_val (snd kv)) d)
      ++ "}".

Definition repr_opt_dict (o : option (dict pyval)) : string :=
  match o with None => "None" | Some d => repr_dict d end.

(** [range(v)] for a grid value: a bool counts as an int, anything else
    that is not an int is refused. *)
Definition py_range (v : pyval) : M (list Z) :=
  match v with
  | PInt n => ret (range n)
  | PBool b => ret (range (if b then 1 else 0))
  | PFloat _ => raise (TypeError "'float' object cannot be interpreted as an integer")
  | PStr _ => raise (TypeError "'str' object cannot be interpreted as an integer")
  | PNone => raise (TypeError "'NoneType' object cannot be interpreted as an integer")
  end.

(** [d[k]] *)
Definition getitem {V} (d : dict V) (k : string) : M V :=
  match dict_get d k with
  | Some v => ret v
  | None => raise (KeyError k)
  end.

(** [x, y = t]: the tuple must have exactly two elements. *)
Definition unpack_two {A} (t : list A) : M (A * A) :=
  match t with
  | [a; b] => ret (a, b)
  | _ :: _ :: _ :: _ => raise (ValueError "too many values to unpack (expected 2)")
  | _ => raise (ValueError ("not enough values to unpack (expected 2, got "
                            ++ str_int (Z.of_nat (List.length t)) ++ ")"))
  end.

End Formatting.

(** ** ComplexCNN.py *)

Module ComplexCNN.
Section Code.
Context {E : Env}.

(** The objects that [load_and_visualize_data] puts in its tuple. *)
Inductive obj : Type :=
| OLoader (l : Loader)
| OClasses (c : list string).

(** [load_and_visualize_data(batch_size)] *)
Definition load_and_visualize_data (batch_size : pyval) : M (list obj) :=
  trainset <- call (EDataset true) (CIFAR10 true) ;;
  testset <- call (EDataset false) (CIFAR10 false) ;;
  trainloader <- call (ELoader batch_size true)
                      (DataLoader (OneSet trainset) batch_size true) ;;
  testloader <- call (ELoader batch_size false)
                     (DataLoader (OneSet testset) batch_size false) ;;
  ret [OLoader trainloader; OLoader testloader; OClasses (classes trainset)].

(** [for inputs, labels in o:], up to the first [inputs.to(device)].
    A loader yields its batches.  A list of strings yields strings: one
    of two characters unpacks and then has no [to]; any other length
    does not unpack. *)
Definition iterate (o : obj) : M (list Batch) :=
  match o with
  | OLoader l => call EIterate (iter_loader l)
  | OClasses [] => ret []
  | OClasses (c :: _) =>
      match String.length c with
      | 2%nat => raise (AttributeError "'str' object has no attribute 'to'")
      | S (S (S _)) => raise (ValueError "too many values to unpack (expected 2)")
      | n => raise (ValueError ("not enough values to unpack (expected 2, got "
                                ++ str_int (Z.of_nat n) ++ ")"))
      end
  end.

(** [len(o)] *)
Definition len (o : obj) : nat :=
  match o with
  | OLoader l => len_loader l
  | OClasses c => List.length c
  end.

(** [o.dataset] *)
Definition dataset_of (o : obj) : M Dataset :=
  match o with
  | OLoader l => ret (loader_dataset l)
  | OClasses _ => raise (AttributeError "'list' object has no attribute 'dataset'")
  end.

(** [train_model(model, trainloader, valloader, criterion, optimizer, epochs)] *)
Definition train_model (model : Net) (trainloader valloader : obj)
           (optimizer : Optimizer) (epochs : pyval) : M unit :=
  model <- call EToDevice (to_device model) ;;
  epoch_range <- py_range epochs ;;
  for_each epoch_range (fun epoch (_ : unit) =>
    call (EMode true) (set_training model true) ;;;
    batches <- iterate trainloader ;;
    running_loss <-
      for_each batches (fun b running_loss =>
        '(loss, _) <- call ETrainStep (train_step model optimizer b) ;;
        ret (fadd running_loss loss)) fzero ;;
    mean_loss <- fdiv running_loss (Z.of_nat (len trainloader)) ;;
    print ("Epoch " ++ str_int (epoch + 1) ++ ", Training Loss: "
                    ++ fixed_loss 4 mean_loss) ;;;
    call (EMode false) (set_training model false) ;;;
    vbatches <- iterate valloader ;;
    '(val_loss, correct, total) <-
      for_each vbatches (fun b '(val_loss, correct, total) =>
        '(loss, ncorrect) <- call EEvalStep (eval_step model b) ;;
        ret (fadd val_loss loss, (correct + ncorrect)%nat, (total + labels_size b)%nat))
        (fzero, 0%nat, 0%nat) ;;
    val_accuracy <- truediv (100 * Z.of_nat correct) (Z.of_nat total) ;;
    mean_val_loss <- fdiv val_loss (Z.of_nat (len valloader)) ;;
    print ("Epoch " ++ str_int (epoch + 1) ++ ", Validation Loss: "
                    ++ fixed_loss 4 mean_val_loss ++ ", Validation Accuracy: "
                    ++ fixed 2 val_accuracy ++ "%")) tt ;;;
  print "Finished Training".

(** [evaluate_model(model, testloader)] *)
Definition evaluate_model (model : Net) (testloader : obj) : M Q :=
  model <- call EToDevice (to_device model) ;;
  call (EMode false) (set_training model false) ;;;
  batches <- iterate testloader ;;
  '(correct, total) <-
    for_each batches (fun b '(correct, total) =>
      '(_, ncorrect) <- call EEvalStep (eval_step model b) ;;
      ret ((correct + ncorrect)%nat, (total + labels_size b)%nat))
      (0%nat, 0%nat) ;;
  accuracy <- truediv (100 * Z.of_nat correct) (Z.of_nat total) ;;
  print ("Accuracy: " ++ fixed 2 accuracy ++ "%") ;;;
  ret accuracy.

(** The loop variables of [hyperparameter_tuning]. *)
Record tuning : Type := mkTuning {
  best_accuracy : Q;
  best_params : option (dict pyval);
  results : list (dict pyval)
}.

(** [if model_name == "SimpleCNN": ... else: raise ValueError(...)] *)
Definition select_model (model_name : pyval) : M Net :=
  if eq_str model_name "SimpleCNN" then call (ENewModel SimpleCNN) (new_model SimpleCNN)
  else if eq_str model_name "RegNetX" then call (ENewModel RegNetX) (new_model RegNetX)
  else if eq_str model_name "ComplexCNN" then call (ENewModel ComplexCNN) (new_model ComplexCNN)
  else raise (ValueError ("Unsupported model: " ++ str_val model_name)).

(** [if optimizer_name == "adam": ... else: raise ValueError(...)] *)
Definition select_optimizer (optimizer_name : pyval) (model : Net)
           (learning_rate : pyval) : M Optimizer :=
  if eq_str optimizer_name "adam" then
    call (EOptimizer (Adam learning_rate)) (new_optimizer model (Adam learning_rate))
  else if eq_str optimizer_name "sgd" then
    call (EOptimizer (SGD learning_rate (Some (round64 (9 # 10)))))
         (new_optimizer model (SGD learning_rate (Some (round64 (9 # 10)))))
  else raise (ValueError ("Unsupported optimizer: " ++ str_val optimizer_name)).

(** [results.append({**params, "accuracy": accuracy})] and the update of
    the best parameters. *)
Definition record_result (params : dict pyval) (accuracy : Q) (v : tuning) : M tuning :=
  let results := (results v ++ [dict_set params "accuracy" (PFloat accuracy)])%list in
  if Qltb (best_accuracy v) accuracy then
    print ("New best accuracy: " ++ fixed 2 accuracy ++ "% with params "
                                 ++ repr_dict params) ;;;
    ret (mkTuning accuracy (Some params) results)
  else ret (mkTuning (best_accuracy v) (best_params v) results).

(** The body of [for params in combinations:].  [loader] is the function
    that the name [load_and_visualize_data] is bound to when the call is
    made. *)
Definition tuning_step (loader : pyval -> M (list obj))
           (params : dict pyval) (v : tuning) : M tuning :=
  print ("Testing combination: " ++ repr_dict params) ;;;
  model_name <- getitem params "model" ;;
  batch_size <- getitem params "batch_size" ;;
  learning_rate <- getitem params "learning_rate" ;;
  optimizer_name <- getitem params "optimizer" ;;
  epochs <- getitem params "epochs" ;;
  model <- select_model model_name ;;
  loaded <- loader batch_size ;;
  '(trainloader, testloader) <- unpack_two loaded ;;
  trainset <- dataset_of trainloader ;;
  let train_size :=
    int_of_float (round64 (round64 (8 # 10) * inject_Z (Z.of_nat (dataset_len trainset)))) in
  trainset <- dataset_of trainloader ;;
  let val_size := (Z.of_nat (dataset_len trainset) - train_size)%Z in
  trainset <- dataset_of trainloader ;;
  val_subset <- call ESplit (random_split trainset [train_size; val_size]) ;;
  valloader <- call (ELoader batch_size false)
                    (DataLoader (SetList val_subset) batch_size false) ;;
  optimizer <- select_optimizer optimizer_name model learning_rate ;;
  train_model model trainloader (OLoader valloader) optimizer epochs ;;;
  accuracy <- evaluate_model model testloader ;;
  record_result params accuracy v.

(** [keys, values = zip( *param_grid.items() )]: the items of a non-empty
    dict transpose to two tuples; an empty dict gives nothing to unpack. *)
Definition unzip_items (param_grid : dict (list pyval))
  : M (list string * list (list pyval)) :=
  match param_grid with
  | [] => raise (ValueError "not enough values to unpack (expected 2, got 0)")
  | _ => ret (map fst param_grid, map snd param_grid)
  end.

(** [dict(zip(keys, v))] for every [v] of [itertools.product] of [values] *)
Definition combinations (keys : list string) (values : list (list pyval))
  : list (dict pyval) :=
  map (fun v => dict_of (combine keys v)) (product values).

Definition hyperparameter_tuning_with (loader : pyval -> M (list obj))
           (param_grid : dict (list pyval))
  : M (option (dict pyval) * Q * list (dict pyval)) :=
  '(keys, values) <- unzip_items param_grid ;;
  v <- for_each (combinations keys values) (tuning_step loader)
                (mkTuning 0 None []) ;;
  print ("Best Accuracy: " ++ fixed 2 (best_accuracy v) ++ "%") ;;;
  print ("Best Parameters: " ++ repr_opt_dict (best_params v)) ;;;
  ret (best_params v, best_accuracy v, results v).

(** [hyperparameter_tuning(param_grid)] *)
Definition hyperparameter_tuning (param_grid : dict (list pyval))
  : M (option (dict pyval) * Q * list (dict pyval)) :=
  hyperparameter_tuning_with load_and_visualize_data param_grid.

(** The grid of the main script. *)
Definition param_grid : dict (list pyval) :=
  [ ("model", [PStr "SimpleCNN"; PStr "RegNetX"]);
    ("batch_size", [PInt 32; PInt 64]);
    ("learning_rate", [PFloat (round64 (1 # 1000)); PFloat (round64 (5 # 10000))]);
    ("optimizer", [PStr "adam"; PStr "sgd"]);
    ("epochs", [PInt 10]) ].

End Code.
End ComplexCNN.

(** ** test_hyperparameters.py *)

Module test_hyperparameters.
Section Code.
Context {E : Env}.

(** The module-level names that [test_hyperparams] reads.  The script
    sets [optimizer_type = 'Adam']. *)
Record globals : Type := mkGlobals {
  optimizer_type : pyval;
  train_dataset : Dataset;
  val_dataset : Dataset;
  test_dataset : Dataset
}.

(** [epoch+1 % 8 == 0]: [%] binds tighter than [+]. *)
Definition epoch_guard (epoch : Z) : bool := (epoch + (1 mod 8) =? 0)%Z.

(** [correct / total * 100] *)
Definition percentage (correct total : nat) : M Q :=
  ratio <- truediv (Z.of_nat correct) (Z.of_nat total) ;;
  ret (round64 (ratio * 100)).

Definition epoch_report (epoch num_epochs : Z) (train_loss : float) (train_acc : Q)
           (val_loss : float) (val_acc : Q) : string :=
  "Epoch [" ++ str_int (epoch + 1) ++ "/" ++ str_int num_epochs ++ "]:" ++ nl
  ++ "Training Loss: " ++ fixed_loss 4 train_loss
  ++ ", Training Acc: " ++ fixed 2 train_acc ++ "%" ++ nl
  ++ "Validation Loss: " ++ fixed_loss 4 val_loss
  ++ ", Validation Acc: " ++ fixed 2 val_acc ++ "%".

(** The four lists that [train_model] fills. *)
Record curves : Type := mkCurves {
  train_losses : list float;
  val_losses : list float;
  train_accs : list Q;
  val_accs : list Q
}.

(** [train_model(model, train_loader, val_loader, num_epochs, criterion, optimizer)] *)
Definition train_model (model : Net) (train_loader val_loader : Loader)
           (num_epochs : Z) (optimizer : Optimizer) : M curves :=
  for_each (range num_epochs) (fun epoch c =>
    call (EMode true) (set_training model true) ;;;
    batches <- call EIterate (iter_loader train_loader) ;;
    '(running_loss, correct, total) <-
      for_each batches (fun b '(running_loss, correct, total) =>
        '(loss, ncorrect) <- call ETrainStep (train_step model optimizer b) ;;
        ret (fadd running_loss loss, (correct + ncorrect)%nat, (total + labels_size b)%nat))
        (fzero, 0%nat, 0%nat) ;;
    train_loss <- fdiv running_loss (Z.of_nat (len_loader train_loader)) ;;
    train_acc <- percentage correct total ;;
    let train_losses := (train_losses c ++ [train_loss])%list in
    let train_accs := (train_accs c ++ [train_acc])%list in
    call (EMode false) (set_training model false) ;;;
    vbatches <- call EIterate (iter_loader val_loader) ;;
    '(val_loss, correct, total) <-
      for_each vbatches (fun b '(val_loss, correct, total) =>
        '(loss, ncorrect) <- call EEvalStep (eval_step model b) ;;
        ret (fadd val_loss loss, (correct + ncorrect)%nat, (total + labels_size b)%nat))
        (fzero, 0%nat, 0%nat) ;;
    val_loss <- fdiv val_loss (Z.of_nat (len_loader val_loader)) ;;
    val_acc <- percentage correct total ;;
    let val_losses := (val_losses c ++ [val_loss])%list in
    let val_accs := (val_accs c ++ [val_acc])%list in
    (if epoch_guard epoch then
       open_output ModeA ;;;
       print_file (epoch_report epoch num_epochs train_loss train_acc val_loss val_acc
                   ++ nl) ;;;
       print (epoch_report epoch num_epochs train_loss train_acc val_loss val_acc)
     else ret tt) ;;;
    ret (mkCurves train_losses val_losses train_accs val_accs))
    (mkCurves [] [] [] []).

(** [evaluate_model(name, model, test_loader)] *)
Definition evaluate_model (name : string) (model : Net) (test_loader : Loader) : M Q :=
  call (EMode false) (set_training model false) ;;;
  batches <- call EIterate (iter_loader test_loader) ;;
  '(correct, total) <-
    for_each batches (fun b '(correct, total) =>
      '(_, ncorrect) <- call EEvalStep (eval_step model b) ;;
      ret ((correct + ncorrect)%nat, (total + labels_size b)%nat))
      (0%nat, 0%nat) ;;
  accuracy <- percentage correct total ;;
  open_output ModeA ;;;
  print_file ("Test Accuracy (" ++ name ++ "): " ++ fixed 2 accuracy ++ "%") ;;;
  print ("Test Accuracy (" ++ name ++ "): " ++ fixed 2 accuracy ++ "%") ;;;
  ret accuracy.

(** A value of the [results] dict. *)
Record result : Type := mkResult {
  accuracy : Q;
  curves_of : curves
}.

(** The hard-coded grid. *)
Definition learning_rate : list Q :=
  map round64 [1 # 10000; 5 # 10000; 1 # 1000; 5 # 1000; 1 # 100; 5 # 100; 1 # 10].
Definition batch_size : list Z := [8; 16; 32; 64; 128; 256]%Z.
Definition num_epochs : list Z := [5; 10; 20; 35; 50; 100]%Z.

(** The loop variables of [test_hyperparams]. *)
Record search : Type := mkSearch {
  results : dict result;
  lr_avg : list (list Q);
  bs_avg : list (list Q);
  ne_avg : list (list Q);
  curr_test : Z
}.

(** [f'lr={lr}, bs={bs}, ne={ne}'] *)
Definition key_of (lr : Q) (bs ne : Z) : string :=
  "lr=" ++ repr_float lr ++ ", bs=" ++ str_int bs ++ ", ne=" ++ str_int ne.

Definition header (curr_test num_tests : Z) (lr : Q) (bs ne : Z) : string :=
  nl ++ "Testing " ++ str_int curr_test ++ "/" ++ str_int num_tests ++ nl
  ++ "Learning Rate: " ++ repr_float lr ++ nl
  ++ "Batch Size: " ++ str_int bs ++ nl
  ++ "Number of Epochs: " ++ str_int ne ++ nl.

(** [if optimizer_type == 'Adam': ... else: ...] *)
Definition make_optimizer (g : globals) (model : Net) (lr : Q) : M Optimizer :=
  if eq_str (optimizer_type g) "Adam" then
    call (EOptimizer (Adam (PFloat lr))) (new_optimizer model (Adam (PFloat lr)))
  else
    call (EOptimizer (SGD (PFloat lr) None)) (new_optimizer model (SGD (PFloat lr) None)).

(** [ll[l.index(x)].append(acc)] *)
Definition append_for {A} (eqb : A -> A -> bool) (l : list A) (x : A)
           (ll : list (list Q)) (acc : Q) : M (list (list Q)) :=
  match index eqb l x with
  | Some i => ret (append_at ll i acc)
  | None => raise (ValueError "x is not in list")
  end.

(** The body of the innermost loop. *)
Definition run_test (g : globals) (num_tests : Z) (lr : Q) (bs ne : Z) (s : search)
  : M search :=
  let curr_test := (curr_test s + 1)%Z in
  open_output ModeA ;;;
  print_file (header curr_test num_tests lr bs ne) ;;;
  print (header curr_test num_tests lr bs ne) ;;;
  train_loader <- call (ELoader (PInt bs) true)
                       (DataLoader (OneSet (train_dataset g)) (PInt bs) true) ;;
  val_loader <- call (ELoader (PInt bs) false)
                     (DataLoader (OneSet (val_dataset g)) (PInt bs) false) ;;
  test_loader <- call (ELoader (PInt bs) false)
                      (DataLoader (OneSet (test_dataset g)) (PInt bs) false) ;;
  model <- call (ENewModel CNN) (new_model CNN) ;;
  optimizer <- make_optimizer g model lr ;;
  c <- train_model model train_loader val_loader ne optimizer ;;
  acc <- evaluate_model (key_of lr bs ne) model test_loader ;;
  let results := dict_set (results s) (key_of lr bs ne) (mkResult acc c) in
  lr_avg <- append_for Qeq_bool learning_rate lr (lr_avg s) acc ;;
  bs_avg <- append_for Z.eqb batch_size bs (bs_avg s) acc ;;
  ne_avg <- append_for Z.eqb num_epochs ne (ne_avg s) acc ;;
  ret (mkSearch results lr_avg bs_avg ne_avg curr_test).

(** [for lr in learning_rate: for bs in batch_size: for ne in num_epochs:] *)
Definition grid_loop (g : globals) (num_tests : Z) (s : search) : M search :=
  for_each learning_rate (fun lr s =>
    for_each batch_size (fun bs s =>
      for_each num_epochs (fun ne s => run_test g num_tests lr bs ne s) s) s) s.

(** [largest_acc[0]] as a number: the initial 0 is an int. *)
Definition number (v : pyval) : Q :=
  match v with
  | PInt z => inject_Z z
  | PFloat q => q
  | _ => 0
  end.

(** [for key in results: if results[key]['accuracy'] > largest_acc[0]: ...] *)
Definition largest (results : dict result) : pyval * string :=
  fold_left (fun largest_acc kr =>
               if Qltb (number (fst largest_acc)) (accuracy (snd kr))
               then (PFloat (accuracy (snd kr)), fst kr)
               else largest_acc)
            results (PInt 0, "none").

Definition verdict (largest_acc : pyval * string) : string :=
  "The best hyperparameters for Adam Optimization are " ++ snd largest_acc
  ++ " with an accuracy of " ++ repr_val (fst largest_acc).

(** [test_hyperparams()]; the variables it ends with are returned for
    the statements about them (the Python function returns None). *)
Definition test_hyperparams (g : globals) : M (search * (pyval * string)) :=
  open_output ModeW ;;;
  print_file "Beginning Hyperparameter Test" ;;;
  let num_tests :=
    (Z.of_nat (List.length learning_rate) * Z.of_nat (List.length batch_size)
     * Z.of_nat (List.length num_epochs))%Z in
  s <- grid_loop g num_tests
         (mkSearch [] (map (fun _ => []) learning_rate)
                      (map (fun _ => []) batch_size)
                      (map (fun _ => []) num_epochs) 0%Z) ;;
  call EPlot (show_plots (lr_avg s) (bs_avg s) (ne_avg s)) ;;;
  let largest_acc := largest (results s) in
  open_output ModeA ;;;
  print_file (verdict largest_acc) ;;;
  print (verdict largest_acc) ;;;
  ret (s, largest_acc).

End Code.
End test_hyperparameters.

(** ** A small concrete environment

    Used to run the two scripts on concrete inputs.  A data set is its
    number of samples, a loader the list of its batch sizes, a model the
    number it was created under; [skill] says how many predictions per
    batch a model gets right (never more than the batch holds).  Floats
    are rounded to multiples of 2^-20. *)

Fixpoint chunks (fuel n bs : nat) : list nat :=
  match fuel with
  | O => []
  | S fuel' =>
      if (n =? 0)%nat then []
      else if (n <=? bs)%nat then [n]
      else bs :: chunks fuel' (n - bs) bs
  end.

Definition toy_round (q : Q) : Q := Qfloor (q * 1048576 + (1 # 2)) # 1048576.

Definition toy_loader (src : data_source nat) (bs : pyval) : list nat :=
  match src, bs with
  | OneSet n, PInt b => chunks n n (Z.to_nat b)
  | SetList l, PInt b => chunks (List.length l) (List.length l) (Z.to_nat b)
  | _, _ => []
  end.

Definition toy (skill : nat -> nat) : Env := {|
  World := nat;
  Net := nat;
  Dataset := nat;
  Loader := list nat;
  Batch := nat;
  Optimizer := optim_spec;
  float := Q;
  fzero := 0;
  fadd := Qplus;
  fdiv_int := fun x n => x / inject_Z n;
  round64 := toy_round;
  repr_float := fun q => str_int (Qnum q) ++ "/" ++ str_int (Zpos (Qden q));
  fixed := fun _ q => str_int (Qfloor q);
  fixed_loss := fun _ q => str_int (Qfloor q);
  new_model := fun _ w => (w, S w);
  to_device := fun net w => (net, w);
  set_training := fun _ _ w => (tt, w);
  CIFAR10 := fun train w => (if train then 10%nat else 4%nat, w);
  classes := fun _ => ["airplane"; "automobile"];
  DataLoader := fun src bs _ w => (toy_loader src bs, w);
  loader_dataset := fun l => list_sum l;
  dataset_len := fun n => n;
  random_split := fun _ lens w => (map Z.to_nat lens, w);
  new_optimizer := fun _ o w => (o, w);
  iter_loader := fun l w => (l, w);
  len_loader := fun l => List.length l;
  labels_size := fun b => b;
  train_step := fun net _ b w => ((1, Nat.min b (skill net)), w);
  eval_step := fun net b w => ((1, Nat.min b (skill net)), w);
  show_plots := fun _ _ _ w => (tt, w)
|}.

Definition toy_state (skill : nat -> nat) : @state (toy skill) :=
  @mkState (toy skill) O EmptyString [].

Definition toy_globals (skill : nat -> nat) (optimizer_type : pyval)
  : @test_hyperparameters.globals (toy skill) :=
  @test_hyperparameters.mkGlobals (toy skill) optimizer_type 3%nat 2%nat 2%nat.

(** ** What a computation adds to the history and to output.txt *)

(** The contents of output.txt after the events [evs] (newest first),
    starting from [contents]. *)
Fixpoint replay (evs : list event) (contents : string) : string :=
  match evs with
  | [] => contents
  | ev :: older =>
      match ev with
      | EOpen ModeW => EmptyString
      | EWrite s => replay older contents ++ s ++ nl
      | _ => replay older contents
      end
  end.

(** The text that the events [evs] (newest first) write. *)
Fixpoint written (evs : list event) : string :=
  match evs with
  | [] => EmptyString
  | EWrite s :: older => written older ++ s ++ nl
  | _ :: older => written older
  end.

Definition is_truncate (ev : event) : bool :=
  match ev with EOpen ModeW => true | _ => false end.

(** The events of the training and evaluation loops proper. *)
Definition loop_event (ev : event) : Prop :=
  match ev with
  | EMode _ | EIterate | ETrainStep | EEvalStep => True
  | _ => False
  end.

(** Nothing printed, nothing opened, nothing written. *)
Definition silent (ev : event) : Prop :=
  match ev with
  | EPrint _ | EOpen _ | EWrite _ => False
  | _ => True
  end.

(** No forward or backward pass. *)
Definition no_training (ev : event) : Prop :=
  match ev with
  | ETrainStep | EEvalStep => False
  | _ => True
  end.

Definition append_only (ev : event) : Prop := is_truncate ev = false.


Section Frames.
Context {E : Env}.

(** [st'] comes after [st]: the history grew by events that satisfy
    [P], and output.txt is what those events make of it. *)
Definition extends (P : event -> Prop) (st st' : state) : Prop :=
  exists evs,
    history st' = (evs ++ history st)%list /\
    Forall P evs /\
    output_txt st' = replay evs (output_txt st).

Definition keeps (P : event -> Prop) {A} (m : M A) : Prop :=
  forall st, extends P st (snd (m st)).

End Frames.

(** ** Vocabulary of the statements *)

(** The events of the grid loop other than building an optimizer; none
    of them truncates output.txt. *)
Definition benign (ev : event) : Prop :=
  match ev with
  | EOpen ModeW | EOptimizer _ => False
  | _ => True
  end.

(** The model names and optimizer names that [hyperparameter_tuning]
    knows. *)
Definition supported_model (v : pyval) : bool :=
  eq_str v "SimpleCNN" || eq_str v "RegNetX" || eq_str v "ComplexCNN".


Section TestVocabulary.
Context {E : Env}.
Import test_hyperparameters.

(** The lengths of the four lists of [train_model]. *)
Definition curve_lengths (n : nat) (c : curves) : Prop :=
  List.length (train_losses c) = n /\ List.length (val_losses c) = n /\
  List.length (train_accs c) = n /\ List.length (val_accs c) = n.

(** The optimizer that [make_optimizer] builds. *)
Definition chosen (g : globals) (lr : Q) : optim_spec :=
  if eq_str (optimizer_type g) "Adam" then Adam (PFloat lr) else SGD (PFloat lr) None.

(** [test_hyperparams] after its first two statements. *)
Definition after_banner (g : globals) : M (search * (pyval * string)) :=
  let num_tests :=
    (Z.of_nat (List.length learning_rate) * Z.of_nat (List.length batch_size)
     * Z.of_nat (List.length num_epochs))%Z in
  s <- grid_loop g num_tests
         (mkSearch [] (map (fun _ => []) learning_rate)
                      (map (fun _ => []) batch_size)
                      (map (fun _ => []) num_epochs) 0%Z) ;;
  call EPlot (show_plots (lr_avg s) (bs_avg s) (ne_avg s)) ;;;
  let largest_acc := largest (results s) in
  open_output ModeA ;;;
  print_file (verdict largest_acc) ;;;
  print (verdict largest_acc) ;;;
  ret (s, largest_acc).

End TestVocabulary.

Section LoaderVocabulary.
Context {E : Env}.

(** The number of labels in a list of batches. *)
Definition total_labels (batches : list Batch) : nat :=
  list_sum (map labels_size batches).

(** A loader that has labels whenever it is iterated. *)
Definition has_labels (l : Loader) : Prop :=
  forall w : World, total_labels (fst (iter_loader l w)) <> O.

End LoaderVocabulary.

Section TuningVocabulary.
Context {E : Env}.
Import ComplexCNN.


End TuningVocabulary.

(** Whether a run ended without an exception. *)
Definition returned {E : Env} {A} (r : res A * state) : bool :=
  match fst r with Ok _ => true | Raise _ => false end.





(** ** Vocabulary of the further properties *)

(** [c] takes, key by key and in the order of the grid, one of the
    choices that the grid offers for the key. *)
Definition chooses (c : dict pyval) (grid : dict (list pyval)) : Prop :=
  Forall2 (fun kv entry => fst kv = fst entry /\ In (snd kv) (snd entry)) c grid.




(** Every exception that [m] can raise satisfies [P]. *)
Definition raises_only {E : Env} (P : exn -> Prop) {A} (m : M A) : Prop :=
  forall st e st', m st = (Raise e, st') -> P e.

Definition is_zero_division (e : exn) : Prop := e = ZeroDivisionError.


(** In training too, a batch never has more correct predictions than
    labels. *)
Definition TrainCountLaw (E : Env) : Prop :=
  forall (net : Net) (optimizer : Optimizer) (b : Batch) (w : World),
    (snd (fst (train_step net optimizer b w)) <= labels_size b)%nat.

Definition in_percent (q : Q) : Prop := 0 <= q <= 100.

(** Not an open of output.txt and not a write to it. *)
Definition no_file (ev : event) : Prop :=
  match ev with
  | EOpen _ | EWrite _ => False
  | _ => True
  end.

(** The keys of a dict after [d[k] = v]. *)
Definition add_key (keys : list string) (k : string) : list string :=
  if in_dec string_dec k keys then keys else (keys ++ [k])%list.

Section GridKeys.
Context {E : Env}.

(** The keys of the runs of [test_hyperparams], in the order of the
    runs. *)
Definition grid_keys : list string :=
  flat_map (fun lr =>
              flat_map (fun bs =>
                          map (fun ne => test_hyperparameters.key_of lr bs ne)
                              test_hyperparameters.num_epochs)
                       test_hyperparameters.batch_size)
           test_hyperparameters.learning_rate.

(** The number of accuracies in a list of buckets. *)
Definition held (buckets : list (list Q)) : nat := List.length (concat buckets).

(** The three lists of buckets have one bucket per value, and each holds
    as many accuracies as runs were made. *)
Definition buckets_follow (s : test_hyperparameters.search) : Prop :=
  List.length (test_hyperparameters.lr_avg s)
  = List.length test_hyperparameters.learning_rate /\
  List.length (test_hyperparameters.bs_avg s)
  = List.length test_hyperparameters.batch_size /\
  List.length (test_hyperparameters.ne_avg s)
  = List.length test_hyperparameters.num_epochs /\
  Z.of_nat (held (test_hyperparameters.lr_avg s)) = test_hyperparameters.curr_test s /\
  Z.of_nat (held (test_hyperparameters.bs_avg s)) = test_hyperparameters.curr_test s /\
  Z.of_nat (held (test_hyperparameters.ne_avg s)) = test_hyperparameters.curr_test s.

End GridKeys.

(** A grid value that [range] takes: an int or a bool. *)
Definition is_int (v : pyval) : bool :=
  match v with PInt _ | PBool _ => true | _ => false end.

(** ** The sizes of the tensors in the three networks

    What the [forward] methods do to the size of a batch of images.  The
    layers follow torch's documented rules: a convolution and a pooling
    compute the new height and width from kernel size, stride and padding
    and refuse a size they cannot cover; a linear layer refuses a last
    dimension that is not its [in_features]; [view] refuses a number of
    elements it cannot divide.  [None] stands for the error torch raises. *)

Module Shapes.

(** The size of a batch of images, [x.size()] of a 4-D tensor. *)
Record nchw : Type := mkNCHW {
  batch : nat;
  channels : nat;
  height : nat;
  width : nat
}.


(** [nn.Conv2d(cin, cout, kernel_size=k, padding=p)], stride 1. *)
Definition conv2d (cin cout k p : nat) (x : nchw) : option nchw :=
  if negb (channels x =? cin)%nat then None
  else if (height x + 2 * p <? k)%nat || (width x + 2 * p <? k)%nat then None
  else Some (mkNCHW (batch x) cout (height x + 2 * p - k + 1) (width x + 2 * p - k + 1)).

(** [nn.MaxPool2d(kernel_size=2, stride=2)] *)
Definition max_pool2d (x : nchw) : option nchw :=
  if (height x <? 2)%nat || (width x <? 2)%nat then None
  else Some (mkNCHW (batch x) (channels x) (height x / 2) (width x / 2)).

(** [nn.BatchNorm2d(c)]; in training it wants more than one value per
    channel. *)
Definition batch_norm2d (c : nat) (training : bool) (x : nchw) : option nchw :=
  if negb (channels x =? c)%nat then None
  else if training && (batch x * height x * width x =? 1)%nat then None
  else Some x.

(** [x += residual]: [residual] must broadcast to the size of [x]. *)
Definition add_ (x residual : nchw) : option nchw :=
  let fits (d r : nat) := (r =? d)%nat || (r =? 1)%nat in
  if fits (batch x) (batch residual) && fits (channels x) (channels residual)
     && fits (height x) (height residual) && fits (width x) (width residual)
  then Some x else None.


(** [x.view(x.size(0), -1)] *)
Definition view_flat (x : nchw) : option (nat * nat) :=
  if (batch x =? 0)%nat then None
  else Some (batch x, channels x * height x * width x)%nat.

(** [nn.Linear(fin, fout)] on a matrix. *)
Definition linear (fin fout : nat) (x : nat * nat) : option (nat * nat) :=
  if (snd x =? fin)%nat then Some (fst x, fout) else None.

Definition andThen {A B} (o : option A) (k : A -> option B) : option B :=
  match o with Some a => k a | None => None end.


(** [CNN.forward] of test_hyperparameters.py. *)
Definition CNN_forward (x : nchw) : option (nat * nat) :=
  andThen (conv2d 3 32 3 1 x) (fun x =>
  andThen (max_pool2d x) (fun x =>
  andThen (conv2d 32 64 3 1 x) (fun x =>
  andThen (max_pool2d x) (fun x =>
  andThen (view_flat x) (fun x =>
  andThen (linear (64 * 8 * 8) 128 x) (fun x =>
  linear 128 10 x)))))).

(** [ComplexCNN.forward] of ComplexCNN.py. *)
Definition ComplexCNN_forward (training : bool) (x : nchw) : option (nat * nat) :=
  (* Block 1 *)
  andThen (conv2d 3 64 3 1 x) (fun x =>
  andThen (batch_norm2d 64 training x) (fun x =>
  andThen (conv2d 64 64 3 1 x) (fun x =>
  andThen (batch_norm2d 64 training x) (fun x =>
  andThen (max_pool2d x) (fun x =>
  (* Block 2 *)
  andThen (conv2d 64 128 3 1 x) (fun x =>
  andThen (batch_norm2d 128 training x) (fun x =>
  andThen (conv2d 128 128 3 1 x) (fun x =>
  andThen (batch_norm2d 128 training x) (fun x =>
  andThen (max_pool2d x) (fun x =>
  (* Block 3 with the residual connection *)
  andThen (conv2d 128 256 1 0 x) (fun residual =>
  andThen (conv2d 128 256 3 1 x) (fun x =>
  andThen (batch_norm2d 256 training x) (fun x =>
  andThen (conv2d 256 256 3 1 x) (fun x =>
  andThen (batch_norm2d 256 training x) (fun x =>
  andThen (add_ x residual) (fun x =>
  andThen (max_pool2d x) (fun x =>
  (* Fully connected layers *)
  andThen (view_flat x) (fun x =>
  andThen (linear (256 * 4 * 4) 512 x) (fun x =>
  andThen (linear 512 128 x) (fun x =>
  linear 128 10 x)))))))))))))))))))).

End Shapes.

(** ** The split of the training data

    [train_size = int(0.8 * len(data))] and
    [val_size = len(data) - train_size], as the module level of
    test_hyperparameters.py and the body of [hyperparameter_tuning] compute
    them. *)

Section Split.
Context {E : Env}.

Definition train_size (n : nat) : Z :=
  int_of_float (round64 (round64 (8 # 10) * inject_Z (Z.of_nat n))).

Definition val_size (n : nat) : Z := (Z.of_nat n - train_size n)%Z.

End Split.

(** * Properties *)

(** ** The monad and its loops *)

Section FrameLemmas.
Context {E : Env}.

Lemma replay_app (later earlier : list event) (c : string) :
  replay (later ++ earlier) c = replay later (replay earlier c).
Proof.
  induction later as [|ev later IH]; simpl; [reflexivity|].
  destruct ev; try destruct mode; rewrite ?IH; reflexivity.
Qed.

Lemma extends_refl (P : event -> Prop) (st : state) : extends P st st.
Proof. exists []; repeat split; auto. Qed.

Lemma extends_trans (P : event -> Prop) (st1 st2 st3 : state) :
  extends P st1 st2 -> extends P st2 st3 -> extends P st1 st3.
Proof.
  intros (evs1 & H1 & F1 & C1) (evs2 & H2 & F2 & C2).
  exists (evs2 ++ evs1)%list; repeat split.
  - rewrite H2, H1, app_assoc; reflexivity.
  - apply Forall_app; split; assumption.
  - rewrite C2, C1, replay_app; reflexivity.
Qed.

Lemma extends_weaken (P Q : event -> Prop) (st st' : state) :
  (forall ev, P ev -> Q ev) -> extends P st st' -> extends Q st st'.
Proof.
  intros HPQ (evs & H & F & C); exists evs; repeat split; auto.
  eapply Forall_impl; eauto.
Qed.

Lemma keeps_weaken (P Q : event -> Prop) {A} (m : M A) :
  (forall ev, P ev -> Q ev) -> keeps P m -> keeps Q m.
Proof. intros HPQ H st; eapply extends_weaken; eauto. Qed.

Lemma keeps_ret (P : event -> Prop) {A} (a : A) : keeps P (ret a).
Proof. intro st; apply extends_refl. Qed.

Lemma keeps_raise (P : event -> Prop) {A} (e : exn) : keeps P (@raise E A e).
Proof. intro st; apply extends_refl. Qed.

Lemma keeps_bind (P : event -> Prop) {A B} (m : M A) (k : A -> M B) :
  keeps P m -> (forall a, keeps P (k a)) -> keeps P (bind m k).
Proof.
  intros Hm Hk st; unfold bind.
  specialize (Hm st); destruct (m st) as [[a|e] st1]; simpl in Hm.
  - eapply extends_trans; [exact Hm | apply Hk].
  - exact Hm.
Qed.

Lemma keeps_for_each (P : event -> Prop) {A B} (xs : list A) (body : A -> B -> M B) :
  (forall x acc, In x xs -> keeps P (body x acc)) ->
  forall acc, keeps P (for_each xs body acc).
Proof.
  induction xs as [|x xs IH]; intros Hbody acc; simpl.
  - apply keeps_ret.
  - apply keeps_bind.
    + apply Hbody; left; reflexivity.
    + intro acc'; apply IH; intros; apply Hbody; right; assumption.
Qed.

Lemma keeps_event (P : event -> Prop) {A} (m : M A) (ev : event) :
  P ev ->
  (forall st, history (snd (m st)) = ev :: history st /\
              output_txt (snd (m st)) = replay [ev] (output_txt st)) ->
  keeps P m.
Proof.
  intros HP Hm st; destruct (Hm st) as [H C].
  exists [ev]; repeat split; auto.
Qed.

Lemma keeps_call (P : event -> Prop) {A} (ev : event) (f : World -> A * World) :
  P ev -> silent ev -> keeps P (call ev f).
Proof.
  intros HP Hs; apply keeps_event with (ev := ev); [assumption|].
  intro st; split; [reflexivity|].
  destruct ev; simpl in *; try reflexivity; contradiction.
Qed.

Lemma keeps_print (P : event -> Prop) (s : string) : P (EPrint s) -> keeps P (print s).
Proof.
  intro HP; apply keeps_event with (ev := EPrint s); [assumption|].
  intro st; split; reflexivity.
Qed.

Lemma keeps_open_output (P : event -> Prop) (mode : open_mode) :
  P (EOpen mode) -> keeps P (open_output mode).
Proof.
  intro HP; apply keeps_event with (ev := EOpen mode); [assumption|].
  intro st; split; [reflexivity|]; destruct mode; reflexivity.
Qed.

Lemma keeps_print_file (P : event -> Prop) (s : string) :
  P (EWrite s) -> keeps P (print_file s).
Proof.
  intro HP; apply keeps_event with (ev := EWrite s); [assumption|].
  intro st; split; reflexivity.
Qed.

Lemma keeps_truediv (P : event -> Prop) (a b : Z) : keeps P (truediv a b).
Proof. unfold truediv; destruct (b =? 0)%Z; [apply keeps_raise | apply keeps_ret]. Qed.

Lemma keeps_fdiv (P : event -> Prop) (x : float) (n : Z) : keeps P (fdiv x n).
Proof. unfold fdiv; destruct (n =? 0)%Z; [apply keeps_raise | apply keeps_ret]. Qed.

Lemma keeps_getitem (P : event -> Prop) {V} (d : dict V) (k : string) :
  keeps P (getitem d k).
Proof. unfold getitem; destruct (dict_get d k); [apply keeps_ret | apply keeps_raise]. Qed.

(** The first failure aborts a loop: no later element is tried. *)
Lemma for_each_raise {A B} (x : A) (xs : list A) (body : A -> B -> M B)
      (acc : B) (st st' : state) (e : exn) :
  body x acc st = (Raise e, st') ->
  for_each (x :: xs) body acc st = (Raise e, st').
Proof. intro H; simpl; unfold bind; rewrite H; reflexivity. Qed.

Lemma string_app_nil_r (s : string) : s ++ EmptyString = s.
Proof. induction s; simpl; congruence. Qed.

Lemma string_app_assoc (s1 s2 s3 : string) : (s1 ++ s2) ++ s3 = s1 ++ (s2 ++ s3).
Proof. induction s1; simpl; congruence. Qed.

(** Events that are not truncations only add text at the end. *)
Lemma replay_append_only (evs : list event) (c : string) :
  Forall append_only evs -> replay evs c = c ++ written evs.
Proof.
  induction 1 as [|ev evs Hev _ IH]; simpl.
  - symmetry; apply string_app_nil_r.
  - destruct ev; try destruct mode; simpl; auto; try discriminate.
    rewrite IH, string_app_assoc; reflexivity.
Qed.

(** Events that print and write nothing leave output.txt alone. *)
Lemma replay_silent (evs : list event) (c : string) :
  Forall silent evs -> replay evs c = c.
Proof.
  induction 1 as [|ev evs Hev _ IH]; simpl; [reflexivity|].
  destruct ev; simpl in Hev; try contradiction; assumption.
Qed.

End FrameLemmas.

(** One step of a frame proof: split a bind, discharge a primitive, or
    case on the scrutinee of a branch. *)
Ltac frame_side := simpl; try exact I; try reflexivity; auto.

Ltac frame_step :=
  match goal with
  | |- keeps _ (bind _ _) => apply keeps_bind; [|intros]
  | |- keeps _ (ret _) => apply keeps_ret
  | |- keeps _ (raise _) => apply keeps_raise
  | |- keeps _ (call _ _) => apply keeps_call; frame_side
  | |- keeps _ (print _) => apply keeps_print; frame_side
  | |- keeps _ (open_output _) => apply keeps_open_output; frame_side
  | |- keeps _ (print_file _) => apply keeps_print_file; frame_side
  | |- keeps _ (truediv _ _) => apply keeps_truediv
  | |- keeps _ (fdiv _ _) => apply keeps_fdiv
  | |- keeps _ (getitem _ _) => apply keeps_getitem
  | |- keeps _ (for_each _ _ _) => apply keeps_for_each; intros
  | H : ?b = false |- keeps _ (if ?b then _ else _) => rewrite H
  | |- keeps _ (match ?x with _ => _ end) => destruct x
  end.

Ltac frame := repeat frame_step.

Section TestHyperparametersFrames.
Context {E : Env}.
Import test_hyperparameters.

Lemma range_nonneg (n x : Z) : In x (range n) -> (0 <= x)%Z.
Proof.
  unfold range; rewrite in_map_iff; intros (k & <- & _); lia.
Qed.

Lemma length_range (n : Z) : (0 <= n)%Z -> Z.of_nat (List.length (range n)) = n.
Proof. intro H; unfold range; rewrite length_map, length_seq; lia. Qed.

Lemma epoch_guard_false (epoch : Z) : (0 <= epoch)%Z -> epoch_guard epoch = false.
Proof.
  intro H; unfold epoch_guard.
  change (1 mod 8)%Z with 1%Z; apply Z.eqb_neq; lia.
Qed.

Lemma keeps_percentage (P : event -> Prop) (correct total : nat) :
  keeps P (percentage correct total).
Proof. unfold percentage; frame. Qed.

(** [train_model] only switches modes, iterates and steps. *)
Lemma train_model_keeps (model : Net) (train_loader val_loader : Loader)
      (n : Z) (optimizer : Optimizer) :
  keeps loop_event (train_model model train_loader val_loader n optimizer).
Proof.
  unfold train_model; apply keeps_for_each; intros epoch c Hin.
  assert (G : epoch_guard epoch = false)
    by (apply epoch_guard_false; eapply range_nonneg; eassumption).
  frame; apply keeps_percentage.
Qed.

End TestHyperparametersFrames.

Section Inversion.
Context {E : Env}.

Lemma bind_ok {A B} (m : M A) (k : A -> M B) (st st' : state) (b : B) :
  bind m k st = (Ok b, st') ->
  exists a st1, m st = (Ok a, st1) /\ k a st1 = (Ok b, st').
Proof.
  unfold bind; destruct (m st) as [[a|e] st1]; intro H.
  - exists a, st1; split; [reflexivity | exact H].
  - discriminate.
Qed.

Lemma ret_ok {A} (a b : A) (st st' : state) :
  ret a st = (Ok b, st') -> b = a /\ st' = st.
Proof. unfold ret; intro H; inversion H; split; reflexivity. Qed.

(** A loop that returns has taken every element through its body; an
    invariant counted up by each pass is counted up by the length. *)
Lemma for_each_counts {A B} (Inv : nat -> B -> Prop) (xs : list A)
      (body : A -> B -> M B) :
  (forall x acc st acc' st' k,
      In x xs -> body x acc st = (Ok acc', st') -> Inv k acc -> Inv (S k) acc') ->
  forall acc st acc' st' k,
    for_each xs body acc st = (Ok acc', st') ->
    Inv k acc -> Inv (k + List.length xs)%nat acc'.
Proof.
  induction xs as [|x xs IH]; intros Hbody acc st acc' st' k Hrun Hinv; simpl in *.
  - apply ret_ok in Hrun; destruct Hrun as [-> _].
    rewrite Nat.add_0_r; exact Hinv.
  - apply bind_ok in Hrun; destruct Hrun as (acc1 & st1 & H1 & H2).
    replace (k + S (List.length xs))%nat with (S k + List.length xs)%nat by lia.
    eapply IH; [ | exact H2 | ].
    + intros; eapply Hbody; eauto.
    + eapply Hbody; eauto.
Qed.

(** The same for an invariant that does not count. *)
Lemma for_each_invariant {A B} (Inv : B -> Prop) (xs : list A)
      (body : A -> B -> M B) :
  (forall x acc st acc' st',
      In x xs -> body x acc st = (Ok acc', st') -> Inv acc -> Inv acc') ->
  forall acc st acc' st',
    for_each xs body acc st = (Ok acc', st') -> Inv acc -> Inv acc'.
Proof.
  intros Hbody acc st acc' st' Hrun Hinv.
  apply (@for_each_counts A B (fun _ => Inv) xs body) with (acc := acc) (st := st) (st' := st') (k := O);
    [ intros; eapply Hbody; eauto | exact Hrun | exact Hinv ].
Qed.

End Inversion.

(** Take a returning chain of binds apart, keeping what each statement
    returned. *)
Ltac bind_inv H :=
  repeat match type of H with
         | bind _ _ _ = (Ok _, _) =>
             let a := fresh "a" in
             let st := fresh "st" in
             let Hm := fresh "Hm" in
             apply bind_ok in H; destruct H as (a & st & Hm & H)
         | (match ?x with _ => _ end) _ = (Ok _, _) => destruct x
         end.

Section TrainModelCurves.
Context {E : Env}.
Import test_hyperparameters.

Lemma train_model_lengths (model : Net) (train_loader val_loader : Loader)
      (n : Z) (optimizer : Optimizer) (st st' : state) (c : curves) :
  train_model model train_loader val_loader n optimizer st = (Ok c, st') ->
  curve_lengths (List.length (range n)) c.
Proof.
  unfold train_model; intro Hrun.
  apply (for_each_counts curve_lengths) with (k := O) in Hrun; [exact Hrun | | ].
  - clear; intros epoch c0 st0 c1 st1 k _ Hbody (H1 & H2 & H3 & H4).
    bind_inv Hbody.
    apply ret_ok in Hbody; destruct Hbody as [-> _].
    unfold curve_lengths; simpl; rewrite !length_app; simpl; lia.
  - repeat split.
Qed.

End TrainModelCurves.

(** ** Accuracy arithmetic *)

Section AccuracyBounds.
Context {E : Env}.
Context {RL : Round64Laws E}.

Lemma quotient_bounds (a b k : Z) :
  (0 <= a <= k * b)%Z -> (0 < b)%Z ->
  0 <= inject_Z a / inject_Z b <= inject_Z k.
Proof.
  intros [Ha Hab] Hb.
  assert (Hb' : 0 < inject_Z b) by (rewrite (Zlt_Qlt 0 b) in Hb; exact Hb).
  split.
  - apply Qle_shift_div_l; [exact Hb'|].
    rewrite Qmult_0_l. rewrite (Zle_Qle 0 a) in Ha; exact Ha.
  - apply Qle_shift_div_r; [exact Hb'|].
    rewrite <- inject_Z_mult, <- Zle_Qle; exact Hab.
Qed.

Lemma round64_unit (x : Q) : 0 <= x <= 1 -> 0 <= round64 x <= 1.
Proof.
  intros [H0 H1]; split.
  - rewrite <- round64_0; apply round64_mono; exact H0.
  - rewrite <- round64_1; apply round64_mono; exact H1.
Qed.

Lemma round64_percent (x : Q) : 0 <= x <= 100 -> 0 <= round64 x <= 100.
Proof.
  intros [H0 H1]; split.
  - rewrite <- round64_0; apply round64_mono; exact H0.
  - rewrite <- round64_100; apply round64_mono; exact H1.
Qed.

Lemma truediv_ok (a b : Z) (st st' : state) (q : Q) :
  truediv a b st = (Ok q, st') ->
  b <> 0%Z /\ q = round64 (inject_Z a / inject_Z b) /\ st' = st.
Proof.
  unfold truediv; destruct (Z.eqb_spec b 0); intro H.
  - discriminate.
  - apply ret_ok in H; destruct H as [-> ->]; auto.
Qed.

(** [100 * correct / total] *)
Lemma scaled_quotient_in_range (correct total : nat) (st st' : state) (q : Q) :
  (correct <= total)%nat ->
  truediv (100 * Z.of_nat correct) (Z.of_nat total) st = (Ok q, st') ->
  0 <= q <= 100.
Proof.
  intros Hle H; apply truediv_ok in H; destruct H as (Hne & -> & _).
  apply round64_percent.
  apply (@quotient_bounds (100 * Z.of_nat correct) (Z.of_nat total) 100); lia.
Qed.

(** [correct / total * 100] *)
Lemma percentage_in_range (correct total : nat) (st st' : state) (q : Q) :
  (correct <= total)%nat ->
  test_hyperparameters.percentage correct total st = (Ok q, st') ->
  0 <= q <= 100.
Proof.
  unfold test_hyperparameters.percentage; intros Hle H.
  bind_inv H. apply ret_ok in H; destruct H as [-> _].
  apply truediv_ok in Hm; destruct Hm as (Hne & -> & _).
  assert (Hr : 0 <= round64 (inject_Z (Z.of_nat correct) / inject_Z (Z.of_nat total)) <= 1).
  { apply round64_unit.
    apply (@quotient_bounds (Z.of_nat correct) (Z.of_nat total) 1); lia. }
  destruct Hr as [Hr0 Hr1].
  apply round64_percent; split.
  - apply Qmult_le_0_compat; [exact Hr0 | discriminate].
  - setoid_replace (100 : Q) with (1 * 100) at 2 by reflexivity.
    apply Qmult_le_compat_r; [exact Hr1 | discriminate].
Qed.

Context (CL : CountLaw E).

(** The tally of an evaluation loop never counts more correct
    predictions than labels. *)
Lemma tally_le (model : Net) (batches : list Batch) (st st' : state)
      (correct total correct' total' : nat) :
  for_each batches
    (fun b '(correct, total) =>
       '(_, ncorrect) <- call EEvalStep (eval_step model b) ;;
       ret ((correct + ncorrect)%nat, (total + labels_size b)%nat))
    (correct, total) st = (Ok (correct', total'), st') ->
  (correct <= total)%nat -> (correct' <= total')%nat.
Proof.
  intros Hrun Hle.
  apply (for_each_invariant (fun ct : nat * nat => (fst ct <= snd ct)%nat))
    in Hrun; [exact Hrun | | exact Hle].
  clear - CL; intros b [c t] st0 [c' t'] st1 _ Hbody Hinv; simpl in *.
  bind_inv Hbody. apply ret_ok in Hbody; destruct Hbody as [Heq _].
  inversion Heq; subst; clear Heq.
  unfold call in Hm; inversion Hm; subst; clear Hm.
  pose proof (CL model b (world st0)) as Hc.
  match goal with H : fst _ = _ |- _ => rewrite H in Hc end.
  simpl in Hc; lia.
Qed.

End AccuracyBounds.

Section ToyLaws.

Lemma toy_round_mono (x y : Q) : x <= y -> toy_round x <= toy_round y.
Proof.
  intro H; unfold toy_round.
  assert (Hf : (Qfloor (x * 1048576 + (1 # 2)) <= Qfloor (y * 1048576 + (1 # 2)))%Z).
  { apply Qfloor_resp_le, Qplus_le_l, Qmult_le_compat_r; [exact H | discriminate]. }
  revert Hf; generalize (Qfloor (x * 1048576 + (1 # 2))) (Qfloor (y * 1048576 + (1 # 2))).
  intros a b Hf; unfold Qle; cbn [Qnum Qden]; lia.
Qed.

Lemma toy_round64_laws (skill : nat -> nat) : Round64Laws (toy skill).
Proof.
  constructor; simpl.
  - exact toy_round_mono.
  - reflexivity.
  - reflexivity.
  - reflexivity.
Qed.

Lemma toy_count_law (skill : nat -> nat) : CountLaw (toy skill).
Proof. intros net b w; simpl; apply Nat.le_min_l. Qed.

End ToyLaws.

(** C4.  The accuracy that [evaluate_model] returns, in either script,
    lies between 0 and 100, when no batch has more correct predictions
    than labels.  (A run that returns had a non-empty loader: with no
    label at all the division raises.) *)
Theorem evaluate_model_accuracy_in_range :
  forall (E : Env), Round64Laws E -> CountLaw E ->
    (forall model testloader st accuracy st',
        ComplexCNN.evaluate_model model testloader st = (Ok accuracy, st') ->
        0 <= accuracy <= 100) /\
    (forall name model test_loader st accuracy st',
        test_hyperparameters.evaluate_model name model test_loader st
        = (Ok accuracy, st') ->
        0 <= accuracy <= 100).
Proof.
  intros E RL CL; split.
  - intros model testloader st accuracy st' H.
    unfold ComplexCNN.evaluate_model in H; bind_inv H.
    apply ret_ok in H; destruct H as [-> _].
    match goal with
    | Hloop : for_each _ _ _ _ = (Ok (?c, ?t), _), Hdiv : truediv _ _ _ = _ |- _ =>
        assert (Hle : (c <= t)%nat)
          by (eapply tally_le; [exact CL | exact Hloop | apply Nat.le_0_l]);
        eapply scaled_quotient_in_range; [exact Hle | exact Hdiv]
    end.
  - intros name model test_loader st accuracy st' H.
    unfold test_hyperparameters.evaluate_model in H; bind_inv H.
    apply ret_ok in H; destruct H as [-> _].
    match goal with
    | Hloop : for_each _ _ _ _ = (Ok (?c, ?t), _),
      Hdiv : test_hyperparameters.percentage _ _ _ = _ |- _ =>
        assert (Hle : (c <= t)%nat)
          by (eapply tally_le; [exact CL | exact Hloop | apply Nat.le_0_l]);
        eapply percentage_in_range; [exact Hle | exact Hdiv]
    end.
Qed.

(** A run of the test script's [evaluate_model] on three batches, of which
    the model gets 2+2+2 of 4+4+4 right. *)
Lemma evaluate_model_accuracy_in_range_witness :
  exists accuracy st',
    @test_hyperparameters.evaluate_model (toy (fun _ => 2%nat))
      "lr=0.1, bs=4, ne=5" O [4; 4; 4]%nat (toy_state _) = (Ok accuracy, st') /\
    accuracy == 50 /\ 0 <= accuracy <= 100.
Proof.
  eexists; eexists; split; [vm_compute; reflexivity|].
  split; [reflexivity|].
  apply (proj2 (evaluate_model_accuracy_in_range
                  (toy_round64_laws _) (@toy_count_law _)))
    with (name := "lr=0.1, bs=4, ne=5") (model := O) (test_loader := [4; 4; 4]%nat)
         (st := toy_state _) (st' := snd (@test_hyperparameters.evaluate_model (toy (fun _ => 2%nat))
      "lr=0.1, bs=4, ne=5" O [4; 4; 4]%nat (toy_state _))).
  vm_compute; reflexivity.
Defined.

(** ** The training loop of test_hyperparameters.py *)

(** C8.  For an epoch index [epoch >= 0] the guard [epoch+1 % 8 == 0] is
    false, and so no run of [train_model] prints, opens output.txt or
    writes to it: the file is as it was and every new event is silent. *)
Theorem epoch_guard_never_fires :
  forall (E : Env) (epoch : Z),
    (0 <= epoch)%Z ->
    test_hyperparameters.epoch_guard epoch = false /\
    (forall model train_loader val_loader num_epochs optimizer st,
        let st' := snd (test_hyperparameters.train_model
                          model train_loader val_loader num_epochs optimizer st) in
        output_txt st' = output_txt st /\
        exists evs, history st' = (evs ++ history st)%list /\ Forall silent evs).
Proof.
  intros E epoch Hepoch; split; [apply epoch_guard_false; exact Hepoch|].
  intros model train_loader val_loader num_epochs optimizer st st'.
  assert (Hk : extends silent st st').
  { apply (@keeps_weaken E loop_event silent _
             (test_hyperparameters.train_model model train_loader val_loader
                                               num_epochs optimizer)).
    - intros ev; destruct ev; simpl; tauto.
    - apply train_model_keeps. }
  destruct Hk as (evs & Hh & Hf & Hc); split.
  - rewrite Hc; apply replay_silent; exact Hf.
  - exists evs; split; assumption.
Qed.

(** The eighth epoch (index 7) of a sixteen-epoch run, which the guard
    was meant to report. *)
Lemma epoch_guard_never_fires_witness :
  test_hyperparameters.epoch_guard 7 = false /\
  output_txt (snd (@test_hyperparameters.train_model (toy (fun _ => 1%nat))
                     O [2; 1]%nat [2]%nat 16 (Adam PNone) (toy_state _)))
  = EmptyString.
Proof.
  destruct (@epoch_guard_never_fires (toy (fun _ => 1%nat)) 7 ltac:(lia)) as [Hg Hrun].
  split; [exact Hg|].
  exact (proj1 (Hrun O [2; 1]%nat [2]%nat 16%Z (Adam PNone) (toy_state _))).
Defined.

(** C5.  When [train_model] is run with [num_epochs >= 0] and returns,
    each of the four lists it returns has [num_epochs] entries. *)
Theorem train_model_curve_lengths :
  forall (E : Env) model train_loader val_loader (num_epochs : Z) optimizer
         (st st' : state) (c : test_hyperparameters.curves),
    (0 <= num_epochs)%Z ->
    test_hyperparameters.train_model model train_loader val_loader num_epochs optimizer st
    = (Ok c, st') ->
    Z.of_nat (List.length (test_hyperparameters.train_losses c)) = num_epochs /\
    Z.of_nat (List.length (test_hyperparameters.val_losses c)) = num_epochs /\
    Z.of_nat (List.length (test_hyperparameters.train_accs c)) = num_epochs /\
    Z.of_nat (List.length (test_hyperparameters.val_accs c)) = num_epochs.
Proof.
  intros E model train_loader val_loader num_epochs optimizer st st' c Hn Hrun.
  apply train_model_lengths in Hrun.
  destruct Hrun as (H1 & H2 & H3 & H4).
  rewrite H1, H2, H3, H4, length_range by exact Hn.
  repeat split.
Qed.

(** Three epochs over a training loader of two batches. *)
Lemma train_model_curve_lengths_witness :
  exists c st',
    @test_hyperparameters.train_model (toy (fun _ => 1%nat))
      O [2; 1]%nat [2]%nat 3 (Adam PNone) (toy_state _) = (Ok c, st') /\
    Z.of_nat (List.length (test_hyperparameters.train_losses c)) = 3%Z /\
    Z.of_nat (List.length (test_hyperparameters.val_losses c)) = 3%Z /\
    Z.of_nat (List.length (test_hyperparameters.train_accs c)) = 3%Z /\
    Z.of_nat (List.length (test_hyperparameters.val_accs c)) = 3%Z.
Proof.
  eexists; eexists; split; [vm_compute; reflexivity|].
  apply (@train_model_curve_lengths (toy (fun _ => 1%nat))
           O [2; 1]%nat [2]%nat 3%Z (Adam PNone) (toy_state _)
           (snd (@test_hyperparameters.train_model (toy (fun _ => 1%nat))
                   O [2; 1]%nat [2]%nat 3 (Adam PNone) (toy_state _)))).
  - lia.
  - vm_compute; reflexivity.
Defined.

(** ** What [test_hyperparams] does to output.txt and which optimizers it builds *)

Ltac benign_side :=
  simpl;
  match goal with
  | H : forall ev, benign ev -> ?P ev |- ?P _ => apply H; exact I
  end.

Section DriverFrames.
Context {E : Env}.
Import test_hyperparameters.

Lemma make_optimizer_run (g : globals) (model : Net) (lr : Q) (st : state) :
  exists optimizer st',
    make_optimizer g model lr st = (Ok optimizer, st') /\
    history st' = EOptimizer (chosen g lr) :: history st /\
    output_txt st' = output_txt st.
Proof.
  unfold make_optimizer, chosen; destruct (eq_str (optimizer_type g) "Adam");
    eexists; eexists; repeat split.
Qed.

Lemma make_optimizer_keeps (P : event -> Prop) (g : globals) (model : Net) (lr : Q) :
  P (EOptimizer (chosen g lr)) -> keeps P (make_optimizer g model lr).
Proof.
  intros HP st.
  destruct (make_optimizer_run g model lr st) as (o & st' & Hrun & Hh & Hc).
  rewrite Hrun; simpl.
  exists [EOptimizer (chosen g lr)]; repeat split; auto.
Qed.

Lemma loop_event_benign (ev : event) : loop_event ev -> benign ev.
Proof. destruct ev; simpl; tauto. Qed.

Lemma evaluate_model_keeps (P : event -> Prop) (name : string) (model : Net)
      (test_loader : Loader) :
  (forall ev, benign ev -> P ev) -> keeps P (evaluate_model name model test_loader).
Proof.
  intro Hb; unfold evaluate_model, percentage.
  repeat (frame_step; try benign_side).
Qed.

Lemma run_test_keeps (P : event -> Prop) (g : globals) (num_tests : Z)
      (lr : Q) (bs ne : Z) (s : search) :
  (forall ev, benign ev -> P ev) ->
  P (EOptimizer (chosen g lr)) ->
  keeps P (run_test g num_tests lr bs ne s).
Proof.
  intros Hb Ho; unfold run_test, append_for.
  repeat (frame_step; try benign_side).
  - apply make_optimizer_keeps; exact Ho.
  - apply keeps_weaken with (P := loop_event); [|apply train_model_keeps].
    intros ev Hev; apply Hb, loop_event_benign; exact Hev.
  - apply evaluate_model_keeps; exact Hb.
Qed.

Lemma grid_loop_keeps (P : event -> Prop) (g : globals) (num_tests : Z) (s : search) :
  (forall ev, benign ev -> P ev) ->
  (forall lr, P (EOptimizer (chosen g lr))) ->
  keeps P (grid_loop g num_tests s).
Proof.
  intros Hb Ho; unfold grid_loop.
  apply keeps_for_each; intros lr s1 _.
  apply keeps_for_each; intros bs s2 _.
  apply keeps_for_each; intros ne s3 _.
  apply run_test_keeps; auto.
Qed.

Lemma test_hyperparams_unfold (g : globals) (st : state) :
  test_hyperparams g st =
  after_banner g
    (mkState (world st) ("Beginning Hyperparameter Test" ++ nl)
             (EWrite "Beginning Hyperparameter Test" :: EOpen ModeW :: history st)).
Proof. reflexivity. Qed.

Lemma after_banner_keeps (P : event -> Prop) (g : globals) :
  (forall ev, benign ev -> P ev) ->
  (forall lr, P (EOptimizer (chosen g lr))) ->
  keeps P (after_banner g).
Proof.
  intros Hb Ho; unfold after_banner.
  repeat (frame_step; try benign_side).
  apply grid_loop_keeps; assumption.
Qed.

Lemma written_app (later earlier : list event) :
  written (later ++ earlier) = written earlier ++ written later.
Proof.
  induction later as [|ev later IH]; simpl.
  - symmetry; apply string_app_nil_r.
  - destruct ev; simpl; try exact IH.
    rewrite IH, string_app_assoc; reflexivity.
Qed.

End DriverFrames.

(** C10.  A run of [test_hyperparams] truncates output.txt once, with its
    first statement, and writes the banner; every event after that leaves
    the file open mode at append.  The file ends as the banner followed
    by what those events wrote, and at every point of the run what was
    written up to then is still the beginning of the final contents. *)
Theorem output_txt_append_only :
  forall (E : Env) (g : test_hyperparameters.globals) (st : state),
    let st' := snd (test_hyperparameters.test_hyperparams g st) in
    let banner := "Beginning Hyperparameter Test" ++ nl in
    exists evs,
      history st'
      = (evs ++ EWrite "Beginning Hyperparameter Test" :: EOpen ModeW :: history st)%list /\
      Forall append_only evs /\
      output_txt st' = banner ++ written evs /\
      (forall later earlier,
          evs = (later ++ earlier)%list ->
          replay earlier banner = banner ++ written earlier /\
          output_txt st' = replay earlier banner ++ written later).
Proof.
  intros E g st; cbv zeta; rewrite test_hyperparams_unfold.
  set (banner := "Beginning Hyperparameter Test" ++ nl).
  set (st1 := mkState (world st) banner
                (EWrite "Beginning Hyperparameter Test" :: EOpen ModeW :: history st)).
  destruct (@after_banner_keeps E append_only g) with (st := st1)
    as (evs & Hh & Hf & Hc).
  - intros ev; destruct ev; try destruct mode; simpl; intro H;
      try reflexivity; contradiction.
  - intro lr; reflexivity.
  - change (output_txt st1) with banner in Hc.
    exists evs; split; [exact Hh|]; split; [exact Hf|]; split.
    + rewrite Hc; apply replay_append_only; exact Hf.
    + intros later earlier Heq; subst evs.
      rewrite Hc, (replay_append_only banner Hf), written_app.
      apply Forall_app in Hf; destruct Hf as [_ Hf].
      rewrite (replay_append_only banner Hf); split; [reflexivity|].
      symmetry; apply string_app_assoc.
Qed.




(** ** The grid search of ComplexCNN.py *)

Section Stepping.
Context {E : Env}.

Lemma bind_ret_l {A B} (a : A) (k : A -> M B) (st : state) :
  bind (ret a) k st = k a st.
Proof. reflexivity. Qed.

Lemma bind_raise_l {A B} (e : exn) (k : A -> M B) (st : state) :
  bind (raise e) k st = (Raise e, st).
Proof. reflexivity. Qed.

Lemma bind_print_l {B} (s : string) (k : unit -> M B) (st : state) :
  bind (print s) k st
  = k tt (mkState (world st) (output_txt st) (EPrint s :: history st)).
Proof. reflexivity. Qed.

Lemma bind_call_l {A B} (ev : event) (f : World -> A * World) (k : A -> M B) (st : state) :
  bind (call ev f) k st
  = k (fst (f (world st)))
      (mkState (snd (f (world st))) (output_txt st) (ev :: history st)).
Proof. reflexivity. Qed.

Lemma bind_assoc {A B C} (m : M A) (k : A -> M B) (h : B -> M C) (st : state) :
  bind (bind m k) h st = bind m (fun a => bind (k a) h) st.
Proof. unfold bind; destruct (m st) as [[a|e] st1]; reflexivity. Qed.

End Stepping.

(** Name the events between two histories. *)
Ltac new_events :=
  match goal with
  | |- exists evs, ?l = (evs ++ ?h)%list /\ _ =>
      let rec go l :=
        lazymatch l with
        | h => constr:(@nil event)
        | ?ev :: ?l' => let r := go l' in constr:(ev :: r)
        end in
      let evs := go l in
      exists evs; split; [reflexivity|]
  end.

Section TuningStep.
Context {E : Env}.
Import ComplexCNN.

Lemma select_model_run (model_name : pyval) (st : state) :
  supported_model model_name = true ->
  exists k,
    select_model model_name st
    = (Ok (fst (new_model k (world st))),
       mkState (snd (new_model k (world st))) (output_txt st)
               (ENewModel k :: history st)).
Proof.
  unfold supported_model, select_model; intro H.
  destruct (eq_str model_name "SimpleCNN"); [exists SimpleCNN; reflexivity|].
  destruct (eq_str model_name "RegNetX"); [exists RegNetX; reflexivity|].
  destruct (eq_str model_name "ComplexCNN"); [exists ComplexCNN; reflexivity|].
  discriminate.
Qed.

Lemma select_model_unsupported (model_name : pyval) (st : state) :
  supported_model model_name = false ->
  select_model model_name st
  = (Raise (ValueError ("Unsupported model: " ++ str_val model_name)), st).
Proof.
  unfold supported_model, select_model; intro H.
  destruct (eq_str model_name "SimpleCNN"); [discriminate|].
  destruct (eq_str model_name "RegNetX"); [discriminate|].
  destruct (eq_str model_name "ComplexCNN"); [discriminate|].
  reflexivity.
Qed.

(** The data-loading statement: the function returns three values, the
    assignment takes two. *)
Lemma loading_raises {B} (batch_size : pyval) (k : obj * obj -> M B) (st : state) :
  exists st',
    bind (load_and_visualize_data batch_size)
         (fun loaded => bind (unpack_two loaded) k) st
    = (Raise (ValueError "too many values to unpack (expected 2)"), st') /\
    history st'
    = ELoader batch_size false :: ELoader batch_size true
      :: EDataset false :: EDataset true :: history st.
Proof. eexists; split; reflexivity. Qed.

(** Whatever the combination, the body of the loop raises, and it does so
    before any forward or backward pass. *)
Lemma tuning_step_raises (params : dict pyval) (v : tuning) (st : state) :
  exists e st',
    tuning_step load_and_visualize_data params v st = (Raise e, st') /\
    (exists evs, history st' = (evs ++ history st)%list /\ Forall no_training evs) /\
    (forall model_name,
        dict_get params "model" = Some model_name ->
        dict_get params "batch_size" <> None ->
        dict_get params "learning_rate" <> None ->
        dict_get params "optimizer" <> None ->
        dict_get params "epochs" <> None ->
        e = if supported_model model_name
            then ValueError "too many values to unpack (expected 2)"
            else ValueError ("Unsupported model: " ++ str_val model_name)).
Proof.
  unfold tuning_step; rewrite bind_print_l; unfold getitem.
  destruct (dict_get params "model") as [model_name|];
    [rewrite bind_ret_l | rewrite bind_raise_l].
  2: { eexists; eexists; split; [reflexivity|]; split;
       [simpl; new_events; repeat constructor | discriminate]. }
  destruct (dict_get params "batch_size") as [batch_size|];
    [rewrite bind_ret_l | rewrite bind_raise_l].
  2: { eexists; eexists; split; [reflexivity|]; split;
       [simpl; new_events; repeat constructor | congruence]. }
  destruct (dict_get params "learning_rate") as [learning_rate|];
    [rewrite bind_ret_l | rewrite bind_raise_l].
  2: { eexists; eexists; split; [reflexivity|]; split;
       [simpl; new_events; repeat constructor | congruence]. }
  destruct (dict_get params "optimizer") as [optimizer_name|];
    [rewrite bind_ret_l | rewrite bind_raise_l].
  2: { eexists; eexists; split; [reflexivity|]; split;
       [simpl; new_events; repeat constructor | congruence]. }
  destruct (dict_get params "epochs") as [epochs|];
    [rewrite bind_ret_l | rewrite bind_raise_l].
  2: { eexists; eexists; split; [reflexivity|]; split;
       [simpl; new_events; repeat constructor | congruence]. }
  destruct (supported_model model_name) eqn:Hsup.
  - match goal with
    | |- context [bind (select_model model_name) ?k ?st1] =>
        destruct (select_model_run model_name st1 Hsup) as [kind Hsel];
        unfold bind at 1; rewrite Hsel
    end.
    eexists; eexists; split; [reflexivity|]; split.
    + simpl; new_events; repeat constructor.
    + intros m Hm _ _ _ _; inversion Hm; subst; rewrite Hsup; reflexivity.
  - unfold bind at 1; rewrite (select_model_unsupported _ _ Hsup).
    eexists; eexists; split; [reflexivity|]; split.
    + simpl; new_events; repeat constructor.
    + intros m Hm _ _ _ _; inversion Hm; subst; rewrite Hsup; reflexivity.
Qed.

End TuningStep.

Section TuningRun.
Context {E : Env}.
Import ComplexCNN.

(** The search stops in its first iteration. *)
Lemma hyperparameter_tuning_first (param_grid : dict (list pyval))
      (params : dict pyval) (rest : list (dict pyval)) (st : state) :
  combinations (map fst param_grid) (map snd param_grid) = params :: rest ->
  param_grid <> [] ->
  hyperparameter_tuning param_grid st
  = (Raise (match fst (tuning_step load_and_visualize_data params (mkTuning 0 None []) st)
            with Raise e => e | Ok _ => ZeroDivisionError end),
     snd (tuning_step load_and_visualize_data params (mkTuning 0 None []) st)).
Proof.
  intros Hc Hne.
  destruct (tuning_step_raises params (mkTuning 0 None []) st) as (e & st' & Hstep & _).
  unfold hyperparameter_tuning, hyperparameter_tuning_with, unzip_items.
  destruct param_grid as [|kv grid]; [congruence|].
  rewrite bind_ret_l, Hc.
  unfold bind at 1.
  erewrite for_each_raise by exact Hstep.
  rewrite Hstep; reflexivity.
Qed.

End TuningRun.



Section Enumeration.

Lemma product_length {A} (ls : list (list A)) :
  List.length (product ls) = product_of_sizes ls.
Proof.
  induction ls as [|l ls IH]; simpl; [reflexivity|].
  rewrite <- IH; clear IH.
  induction l as [|x l IHl]; simpl; [reflexivity|].
  rewrite length_app, length_map, IHl; reflexivity.
Qed.

(** [product] lists exactly the choices of one element per list. *)
Lemma in_product {A} (ls : list (list A)) (v : list A) :
  In v (product ls) <-> Forall2 (fun x l => In x l) v ls.
Proof.
  revert v; induction ls as [|l ls IH]; intro v; simpl.
  - split.
    + intros [<-|[]]; constructor.
    + intro H; inversion H; left; reflexivity.
  - rewrite in_flat_map; split.
    + intros (x & Hx & Hv); apply in_map_iff in Hv.
      destruct Hv as (v' & <- & Hv'); constructor; [exact Hx | apply IH; exact Hv'].
    + intro H; inversion H as [|x l' v' ls' Hx Hv']; subst.
      exists x; split; [exact Hx|].
      apply in_map_iff; exists v'; split; [reflexivity | apply IH; exact Hv'].
Qed.

(** The number of combinations is the product of the sizes of the choice
    lists. *)
Lemma combinations_length (keys : list string) (values : list (list pyval)) :
  List.length (ComplexCNN.combinations keys values) = product_of_sizes values.
Proof. unfold ComplexCNN.combinations; rewrite length_map; apply product_length. Qed.

End Enumeration.

(** C2, on the grid of the main script.  The grid has 2*2*2*2*1 = 16
    combinations, and [hyperparameter_tuning] stops in the first one with
    the ValueError of the data-loading statement: a model was built and
    the data loaders were made, nothing was trained or evaluated, and no
    result comes back. *)
Theorem main_grid_search_trains_no_model :
  forall (E : Env) (st : state),
    List.length (ComplexCNN.combinations (map fst (@ComplexCNN.param_grid E))
                                         (map snd (@ComplexCNN.param_grid E))) = 16%nat /\
    product_of_sizes (map snd (@ComplexCNN.param_grid E)) = 16%nat /\
    exists st',
      ComplexCNN.hyperparameter_tuning ComplexCNN.param_grid st
      = (Raise (ValueError "too many values to unpack (expected 2)"), st') /\
      history st'
      = ELoader (PInt 32) false :: ELoader (PInt 32) true
        :: EDataset false :: EDataset true :: ENewModel SimpleCNN
        :: EPrint ("Testing combination: "
                   ++ repr_dict [("model", PStr "SimpleCNN"); ("batch_size", PInt 32);
                                 ("learning_rate", PFloat (round64 (1 # 1000)));
                                 ("optimizer", PStr "adam"); ("epochs", PInt 10)])
        :: history st.
Proof.
  intros E st; split; [reflexivity|]; split; [reflexivity|].
  eexists; split; reflexivity.
Qed.

(** C6, on a grid of one combination whose model name is supported.  The
    search still raises a ValueError: the one of the data-loading
    statement. *)
Theorem supported_model_still_raises_ValueError :
  forall (E : Env) (st : state),
    supported_model (PStr "SimpleCNN") = true /\
    fst (ComplexCNN.hyperparameter_tuning
           [("model", [PStr "SimpleCNN"]); ("batch_size", [PInt 32]);
            ("learning_rate", [PFloat (round64 (1 # 1000))]);
            ("optimizer", [PStr "adam"]); ("epochs", [PInt 10])] st)
    = Raise (ValueError "too many values to unpack (expected 2)").
Proof. intros E st; split; reflexivity. Qed.

Section UnsupportedModel.
Context {E : Env}.
Import ComplexCNN.


End UnsupportedModel.

(** ** Unsupported optimizer names *)



(** ** The best parameters *)

Section Comparison.



Lemma dict_get_set {V} (d : dict V) (k : string) (v : V) :
  dict_get (dict_set d k v) k = Some v.
Proof.
  induction d as [|[k' v'] d IH]; simpl.
  - rewrite String.eqb_refl; reflexivity.
  - destruct (String.eqb k' k) eqn:Hk; simpl; rewrite Hk; [reflexivity | exact IH].
Qed.

End Comparison.

Section Largest.
Context {E : Env}.
Import test_hyperparameters.





End Largest.

Section BestParams.
Context {E : Env}.
Import ComplexCNN.






End BestParams.




(** ** Runs that return *)

Section Returns.
Context {E : Env}.

Lemma eval_tally_returns (model : Net) (batches : list Batch) (correct total : nat)
      (st : state) :
  exists correct' st',
    for_each batches
      (fun b '(correct, total) =>
         '(_, ncorrect) <- call EEvalStep (eval_step model b) ;;
         ret ((correct + ncorrect)%nat, (total + labels_size b)%nat))
      (correct, total) st
    = (Ok (correct', (total + total_labels batches)%nat), st').
Proof.
  revert correct total st; induction batches as [|b batches IH]; intros correct total st.
  - exists correct, st; simpl; unfold total_labels; simpl; rewrite Nat.add_0_r; reflexivity.
  - simpl for_each; rewrite bind_assoc, bind_call_l.
    destruct (fst (eval_step model b (world st))) as [loss ncorrect].
    rewrite bind_ret_l.
    edestruct IH as (c' & st' & Hrun); rewrite Hrun.
    exists c', st'; unfold total_labels; simpl; rewrite Nat.add_assoc; reflexivity.
Qed.

Lemma loss_tally_returns (step : Batch -> World -> (float * nat) * World) (ev : event)
      (batches : list Batch) (loss : float) (correct total : nat) (st : state) :
  exists loss' correct' st',
    for_each batches
      (fun b '(running_loss, correct, total) =>
         '(loss, ncorrect) <- call ev (step b) ;;
         ret (fadd running_loss loss, (correct + ncorrect)%nat,
              (total + labels_size b)%nat))
      (loss, correct, total) st
    = (Ok (loss', correct', (total + total_labels batches)%nat), st').
Proof.
  revert loss correct total st; induction batches as [|b batches IH];
    intros loss correct total st.
  - exists loss, correct, st; simpl; unfold total_labels; simpl;
      rewrite Nat.add_0_r; reflexivity.
  - simpl for_each; rewrite bind_assoc, bind_call_l.
    destruct (fst (step b (world st))) as [l ncorrect].
    rewrite bind_ret_l.
    edestruct IH as (l' & c' & st' & Hrun); rewrite Hrun.
    exists l', c', st'; unfold total_labels; simpl; rewrite Nat.add_assoc; reflexivity.
Qed.

Lemma percentage_returns (correct total : nat) (st : state) :
  total <> O ->
  exists q, test_hyperparameters.percentage correct total st = (Ok q, st).
Proof.
  intro H; unfold test_hyperparameters.percentage, truediv.
  destruct (Z.eqb_spec (Z.of_nat total) 0); [lia|].
  eexists; reflexivity.
Qed.

(** On a test loader that has labels, [evaluate_model] of
    test_hyperparameters.py returns. *)
Lemma evaluate_model_returns (name : string) (model : Net) (test_loader : Loader)
      (st : state) :
  has_labels test_loader ->
  exists accuracy st',
    test_hyperparameters.evaluate_model name model test_loader st = (Ok accuracy, st').
Proof.
  intro Hlabels; unfold test_hyperparameters.evaluate_model.
  rewrite !bind_call_l.
  match goal with
  | |- context [bind (for_each ?bs ?body (O, O)) ?k ?st1] =>
      destruct (eval_tally_returns model bs O O st1) as (c & st2 & Hloop);
      unfold bind at 1; rewrite Hloop
  end.
  match goal with
  | |- context [test_hyperparameters.percentage c ?t] =>
      destruct (@percentage_returns c t st2) as (q & Hq);
      [simpl; apply Hlabels | unfold bind at 1; rewrite Hq]
  end.
  eexists; eexists; reflexivity.
Qed.

(** On a test loader that has labels, [evaluate_model] of ComplexCNN.py
    returns. *)
Lemma complex_evaluate_model_returns (model : Net) (testloader : Loader) (st : state) :
  has_labels testloader ->
  exists accuracy st',
    ComplexCNN.evaluate_model model (ComplexCNN.OLoader testloader) st
    = (Ok accuracy, st').
Proof.
  intro Hlabels; unfold ComplexCNN.evaluate_model, ComplexCNN.iterate.
  rewrite !bind_call_l.
  match goal with
  | |- context [bind (for_each ?bs ?body (O, O)) ?k ?st1] =>
      destruct (eval_tally_returns (fst (to_device model (world st))) bs O O st1)
        as (c & st2 & Hloop);
      unfold bind at 1; rewrite Hloop
  end.
  unfold truediv.
  match goal with
  | |- context [(Z.of_nat ?t =? 0)%Z] =>
      destruct (Z.eqb_spec (Z.of_nat t) 0) as [Hz|Hz]
  end.
  - exfalso; simpl in Hz.
    match type of Hz with Z.of_nat ?t = _ => assert (Ht : t = O) by lia end.
    revert Ht; apply Hlabels.
  - eexists; eexists; reflexivity.
Qed.

Lemma fdiv_returns (x : float) (n : nat) (st : state) :
  n <> O -> fdiv x (Z.of_nat n) st = (Ok (fdiv_int x (Z.of_nat n)), st).
Proof.
  intro H; unfold fdiv; destruct (Z.eqb_spec (Z.of_nat n) 0); [lia | reflexivity].
Qed.

(** With loaders that are not empty and have labels, every epoch of
    [train_model] of test_hyperparameters.py goes through, and so the
    function returns, for any number of epochs. *)
Lemma train_model_returns (model : Net) (train_loader val_loader : Loader)
      (num_epochs : Z) (optimizer : Optimizer) (st : state) :
  len_loader train_loader <> O -> len_loader val_loader <> O ->
  has_labels train_loader -> has_labels val_loader ->
  exists c st',
    test_hyperparameters.train_model model train_loader val_loader num_epochs optimizer st
    = (Ok c, st').
Proof.
  intros Hlen Hvlen Hlab Hvlab; unfold test_hyperparameters.train_model.
  generalize (test_hyperparameters.mkCurves [] [] [] []).
  revert st; induction (range num_epochs) as [|epoch epochs IH]; intros st c.
  - exists c, st; reflexivity.
  - simpl for_each.
    rewrite bind_assoc, bind_call_l, bind_assoc, bind_call_l, bind_assoc.
    match goal with
    | |- context [bind (for_each ?bs ?body (fzero, O, O)) ?k ?st1] =>
        destruct (loss_tally_returns (train_step model optimizer) ETrainStep
                                     bs fzero O O st1) as (l1 & c1 & st2 & Hloop);
        unfold bind at 1; rewrite Hloop
    end.
    rewrite bind_assoc; unfold bind at 1; rewrite (fdiv_returns _ _ Hlen).
    rewrite bind_assoc.
    match goal with
    | |- context [test_hyperparameters.percentage c1 ?t] =>
        destruct (@percentage_returns c1 t st2) as (q1 & Hq1);
        [simpl; apply Hlab | unfold bind at 1; rewrite Hq1]
    end.
    rewrite bind_assoc, bind_call_l, bind_assoc, bind_call_l, bind_assoc.
    match goal with
    | |- context [bind (for_each ?bs ?body (fzero, O, O)) ?k ?st3] =>
        destruct (loss_tally_returns (eval_step model) EEvalStep
                                     bs fzero O O st3) as (l2 & c2 & st4 & Hvloop);
        unfold bind at 1; rewrite Hvloop
    end.
    rewrite bind_assoc; unfold bind at 1; rewrite (fdiv_returns _ _ Hvlen).
    rewrite bind_assoc.
    match goal with
    | |- context [test_hyperparameters.percentage c2 ?t] =>
        destruct (@percentage_returns c2 t st4) as (q2 & Hq2);
        [simpl; apply Hvlab | unfold bind at 1; rewrite Hq2]
    end.
    rewrite bind_assoc.
    destruct (test_hyperparameters.epoch_guard epoch);
      unfold bind at 1; simpl; apply IH.
Qed.

End Returns.

(** ** The number of runs of [test_hyperparams] *)

Section RunCount.
Context {E : Env}.
Import test_hyperparameters.

Lemma for_each_adds {A B} (f : B -> Z) (d : Z) (xs : list A) (body : A -> B -> M B) :
  (forall x acc st acc' st', body x acc st = (Ok acc', st') -> f acc' = (f acc + d)%Z) ->
  forall acc st acc' st',
    for_each xs body acc st = (Ok acc', st') ->
    f acc' = (f acc + d * Z.of_nat (List.length xs))%Z.
Proof.
  intros Hbody acc st acc' st' Hrun.
  apply (for_each_counts (fun k b => f b = (f acc + d * Z.of_nat k)%Z)) with (k := O)
    in Hrun; [exact Hrun | | simpl; lia].
  intros x b st0 b' st1 k _ Hstep Hinv.
  rewrite (Hbody _ _ _ _ _ Hstep), Hinv; lia.
Qed.

Lemma run_test_counts (g : globals) (num_tests : Z) (lr : Q) (bs ne : Z)
      (s s' : search) (st st' : state) :
  run_test g num_tests lr bs ne s st = (Ok s', st') ->
  curr_test s' = (curr_test s + 1)%Z.
Proof.
  unfold run_test; intro H; bind_inv H.
  apply ret_ok in H; destruct H as [-> _]; reflexivity.
Qed.

(** A grid loop that returns has made one run per combination of the
    three lists: 7 * 6 * 6 of them. *)
Lemma grid_loop_counts (g : globals) (num_tests : Z) (s s' : search) (st st' : state) :
  grid_loop g num_tests s st = (Ok s', st') ->
  curr_test s'
  = (curr_test s
     + Z.of_nat (List.length learning_rate * List.length batch_size
                 * List.length num_epochs))%Z.
Proof.
  unfold grid_loop; intro H.
  apply (for_each_adds curr_test (Z.of_nat (List.length batch_size * List.length num_epochs)))
    in H; [rewrite H; lia|].
  intros lr s1 st1 s2 st2 H1.
  apply (for_each_adds curr_test (Z.of_nat (List.length num_epochs)))
    in H1; [rewrite H1; lia|].
  intros bs s3 st3 s4 st4 H2.
  apply (for_each_adds curr_test 1) in H2; [rewrite H2; lia|].
  intros ne s5 st5 s6 st6 H3; eapply run_test_counts; exact H3.
Qed.

Lemma test_hyperparams_run_count (g : globals) (st st' : state) (s : search)
      (la : pyval * string) :
  test_hyperparams g st = (Ok (s, la), st') -> curr_test s = 252%Z.
Proof.
  rewrite test_hyperparams_unfold; unfold after_banner; intro H.
  bind_inv H. apply ret_ok in H; destruct H as [Heq _].
  inversion Heq; subst; clear Heq.
  match goal with
  | Hloop : grid_loop _ _ _ _ = _ |- _ => apply grid_loop_counts in Hloop; rewrite Hloop
  end.
  reflexivity.
Qed.

End RunCount.

(** ** The record of one run *)

Section Records.
Context {E : Env}.

(** A pass of the loop of [test_hyperparams] that goes through stores,
    under the key of its combination, a record whose four curves have one
    entry per epoch. *)
Lemma run_test_records (g : test_hyperparameters.globals) (num_tests : Z)
      (lr : Q) (bs ne : Z) (s s' : test_hyperparameters.search) (st st' : state) :
  test_hyperparameters.run_test g num_tests lr bs ne s st = (Ok s', st') ->
  exists r,
    dict_get (test_hyperparameters.results s') (test_hyperparameters.key_of lr bs ne)
    = Some r /\
    curve_lengths (List.length (range ne)) (test_hyperparameters.curves_of r).
Proof.
  unfold test_hyperparameters.run_test; intro H; bind_inv H.
  apply ret_ok in H; destruct H as [-> _]; simpl.
  eexists; split; [apply dict_get_set|]; simpl.
  match goal with
  | Ht : test_hyperparameters.train_model _ _ _ _ _ _ = _ |- _ =>
      exact (train_model_lengths _ _ _ _ _ _ Ht)
  end.
Qed.


End Records.

(** * Further properties *)

(** ** The combinations of a grid *)

Section Combinations.

Lemma dict_set_fresh {V} (d : dict V) (k : string) (v : V) :
  ~ In k (dict_keys d) -> dict_set d k v = (d ++ [(k, v)])%list.
Proof.
  induction d as [|[k' v'] d IH]; simpl; intro H; [reflexivity|].
  destruct (String.eqb_spec k' k) as [->|Hne]; [tauto|].
  rewrite IH by tauto; reflexivity.
Qed.

Lemma dict_keys_app {V} (d1 d2 : dict V) :
  dict_keys (d1 ++ d2)%list = (dict_keys d1 ++ dict_keys d2)%list.
Proof. apply map_app. Qed.

Lemma fold_dict_set_fresh {V} (pairs : list (string * V)) (d : dict V) :
  NoDup (map fst pairs) ->
  (forall k, In k (map fst pairs) -> ~ In k (dict_keys d)) ->
  fold_left (fun d kv => dict_set d (fst kv) (snd kv)) pairs d = (d ++ pairs)%list.
Proof.
  revert d; induction pairs as [|[k v] pairs IH]; intros d Hnd Hfresh; simpl.
  - rewrite app_nil_r; reflexivity.
  - inversion Hnd as [|k0 ks Hk Hnd']; subst.
    rewrite dict_set_fresh by (apply Hfresh; left; reflexivity).
    rewrite IH; [rewrite <- app_assoc; reflexivity | exact Hnd' |].
    intros k' Hin; rewrite dict_keys_app, in_app_iff; simpl.
    intros [H | [<- | []]]; [|exact (Hk Hin)].
    revert H; apply Hfresh; right; exact Hin.
Qed.

Lemma map_fst_combine {A B} (l : list A) (l' : list B) :
  List.length l = List.length l' -> map fst (combine l l') = l.
Proof.
  revert l'; induction l as [|a l IH]; intros [|b l'] H; simpl in *;
    try discriminate; [reflexivity|].
  rewrite IH by congruence; reflexivity.
Qed.

(** With distinct keys, [dict(zip(keys, v))] keeps the pairs as they
    come. *)
Lemma dict_of_combine (keys : list string) (v : list pyval) :
  NoDup keys -> List.length keys = List.length v ->
  dict_of (combine keys v) = combine keys v.
Proof.
  intros Hnd Hlen; unfold dict_of.
  rewrite fold_dict_set_fresh; [reflexivity | | intros k _ []].
  rewrite map_fst_combine by exact Hlen; exact Hnd.
Qed.

Lemma chooses_combine (grid : dict (list pyval)) (c : dict pyval) :
  chooses c grid <->
  exists v, Forall2 (fun x l => In x l) v (map snd grid) /\ c = combine (map fst grid) v.
Proof.
  unfold chooses; split.
  - induction 1 as [|[k x] [k' l] c grid [Hk Hx] _ (v & Hv & ->)]; simpl in *.
    + exists []; split; [constructor | reflexivity].
    + subst k'; exists (x :: v); split; [constructor; assumption | reflexivity].
  - intros (v & Hv & ->); revert v Hv.
    induction grid as [|[k l] grid IH]; intros v Hv; inversion Hv; subst; simpl.
    + constructor.
    + constructor; [split; [reflexivity | assumption] | apply IH; assumption].
Qed.

Lemma NoDup_product {A} (ls : list (list A)) :
  Forall (@NoDup A) ls -> NoDup (product ls).
Proof.
  induction 1 as [|l ls Hl _ IH]; simpl; [repeat constructor; intros []|].
  induction Hl as [|x l Hx _ IHl]; simpl; [constructor|].
  apply NoDup_app.
  - apply NoDup_map_NoDup_ForallPairs; [|exact IH].
    intros a b _ _ Heq; congruence.
  - exact IHl.
  - intros v Hv Hv'; apply in_map_iff in Hv; destruct Hv as (v' & <- & _).
    apply in_flat_map in Hv'; destruct Hv' as (y & Hy & Hv').
    apply in_map_iff in Hv'; destruct Hv' as (v'' & Heq & _).
    inversion Heq; subst; exact (Hx Hy).
Qed.

Lemma combine_inj {A B} (keys : list A) (v v' : list B) :
  List.length keys = List.length v -> List.length keys = List.length v' ->
  combine keys v = combine keys v' -> v = v'.
Proof.
  revert v v'; induction keys as [|k keys IH]; intros [|x v] [|x' v'] H H' Heq;
    simpl in *; try discriminate; [reflexivity|].
  inversion Heq; subst; f_equal; apply IH; congruence.
Qed.

End Combinations.

(** X1.  For a grid with distinct keys, the combinations that
    [hyperparameter_tuning] builds are exactly the dicts that take, key
    by key in the order of the grid, one of the choices of the key;
    there are as many as the product of the numbers of choices, and none
    comes twice when no choice is listed twice. *)
Theorem combinations_are_the_choices :
  forall (grid : dict (list pyval)),
    NoDup (map fst grid) ->
    (forall c, In c (ComplexCNN.combinations (map fst grid) (map snd grid))
               <-> chooses c grid) /\
    List.length (ComplexCNN.combinations (map fst grid) (map snd grid))
    = product_of_sizes (map snd grid) /\
    (Forall (@NoDup pyval) (map snd grid) ->
     NoDup (ComplexCNN.combinations (map fst grid) (map snd grid))).
Proof.
  intros grid Hkeys.
  assert (Hlen : forall v, In v (product (map snd grid)) ->
                           List.length (map fst grid) = List.length v).
  { intros v Hv; apply in_product, Forall2_length in Hv.
    rewrite !length_map in *; congruence. }
  split; [|split].
  - intro c; unfold ComplexCNN.combinations; rewrite in_map_iff, chooses_combine.
    split; intros (v & H1 & H2).
    + exists v; split; [apply in_product; exact H2|].
      rewrite <- H1; apply dict_of_combine; auto.
    + exists v; split; [|apply in_product; exact H1].
      rewrite H2; apply dict_of_combine; [exact Hkeys|].
      apply Hlen, in_product; exact H1.
  - apply combinations_length.
  - intro Hnd; unfold ComplexCNN.combinations.
    apply NoDup_map_NoDup_ForallPairs; [|apply NoDup_product; exact Hnd].
    intros v v' Hv Hv' Heq.
    rewrite !dict_of_combine in Heq by auto.
    eapply combine_inj; [| |exact Heq]; auto.
Qed.

(** The grid of the main script. *)
Lemma combinations_are_the_choices_witness :
  (forall c,
      In c (ComplexCNN.combinations (map fst (@ComplexCNN.param_grid (toy (fun _ => O))))
                                    (map snd (@ComplexCNN.param_grid (toy (fun _ => O)))))
      <-> chooses c (@ComplexCNN.param_grid (toy (fun _ => O)))) /\
  List.length (ComplexCNN.combinations
                 (map fst (@ComplexCNN.param_grid (toy (fun _ => O))))
                 (map snd (@ComplexCNN.param_grid (toy (fun _ => O))))) = 16%nat.
Proof.
  destruct (@combinations_are_the_choices (@ComplexCNN.param_grid (toy (fun _ => O))))
    as (H1 & H2 & _).
  - simpl; repeat constructor; simpl; intuition discriminate.
  - split; [exact H1 | exact H2].
Defined.

(** ** How the search of ComplexCNN.py ends *)

Section SearchEnds.

Lemma product_nil_iff {A} (ls : list (list A)) : product ls = [] <-> In [] ls.
Proof.
  induction ls as [|l ls IH]; simpl.
  - split; [discriminate | intros []].
  - split.
    + intro H; destruct l as [|x l]; [left; reflexivity|right].
      apply IH; simpl in H; apply app_eq_nil in H; destruct H as [H _].
      destruct (product ls); [reflexivity | discriminate].
    + intros [-> | H]; [reflexivity|].
      apply IH in H; rewrite H.
      induction l as [|x l IHl]; simpl; [reflexivity | exact IHl].
Qed.

End SearchEnds.

(** X2.  [hyperparameter_tuning] comes back only from a grid without
    combinations.  An empty grid raises the ValueError of the unpacking
    of its items; a grid with a key that has no choice returns None, 0.0
    and no result after printing the two summary lines; every other grid
    raises. *)
Theorem search_returns_only_without_combinations :
  forall (E : Env) (param_grid : dict (list pyval)) (st : state),
    (param_grid = [] ->
     ComplexCNN.hyperparameter_tuning param_grid st
     = (Raise (ValueError "not enough values to unpack (expected 2, got 0)"), st)) /\
    (param_grid <> [] -> In [] (map snd param_grid) ->
     ComplexCNN.hyperparameter_tuning param_grid st
     = (Ok (None, 0, []),
        mkState (world st) (output_txt st)
                (EPrint "Best Parameters: None"
                 :: EPrint ("Best Accuracy: " ++ fixed 2 0 ++ "%") :: history st))) /\
    (param_grid <> [] -> ~ In [] (map snd param_grid) ->
     exists e st', ComplexCNN.hyperparameter_tuning param_grid st = (Raise e, st')).
Proof.
  intros E param_grid st; split; [|split].
  - intros ->; reflexivity.
  - intros Hne Hnil; apply product_nil_iff in Hnil.
    unfold ComplexCNN.hyperparameter_tuning, ComplexCNN.hyperparameter_tuning_with,
      ComplexCNN.unzip_items, ComplexCNN.combinations.
    destruct param_grid as [|kv grid]; [congruence|].
    rewrite bind_ret_l, Hnil; reflexivity.
  - intros Hne Hnil.
    destruct (ComplexCNN.combinations (map fst param_grid) (map snd param_grid))
      as [|params rest] eqn:Hc.
    + exfalso; apply Hnil, product_nil_iff.
      unfold ComplexCNN.combinations in Hc; apply map_eq_nil in Hc; exact Hc.
    + rewrite hyperparameter_tuning_first with (params := params) (rest := rest)
        by assumption.
      eexists; eexists; reflexivity.
Qed.





(** ** The records of a search that goes through *)

Section Collecting.
Context {E : Env}.




End Collecting.



(** ** The evaluation of test_hyperparameters.py *)

Section EvaluateRuns.
Context {E : Env}.

(** The tally loop goes through every batch; it only steps the model. *)
Lemma eval_tally_run (model : Net) (batches : list Batch) (correct total : nat)
      (st : state) :
  exists correct' st',
    for_each batches
      (fun b '(correct, total) =>
         '(_, ncorrect) <- call EEvalStep (eval_step model b) ;;
         ret ((correct + ncorrect)%nat, (total + labels_size b)%nat))
      (correct, total) st
    = (Ok (correct', (total + total_labels batches)%nat), st') /\
    extends loop_event st st'.
Proof.
  destruct (eval_tally_returns model batches correct total st) as (c' & st' & Hrun).
  exists c', st'; split; [exact Hrun|].
  assert (Hk : keeps loop_event
                 (for_each batches
                    (fun b '(correct, total) =>
                       '(_, ncorrect) <- call EEvalStep (eval_step model b) ;;
                       ret ((correct + ncorrect)%nat, (total + labels_size b)%nat))
                    (correct, total))) by frame.
  specialize (Hk st); rewrite Hrun in Hk; exact Hk.
Qed.

Lemma extends_loop_event_output (st st' : state) :
  extends loop_event st st' ->
  output_txt st' = output_txt st /\
  exists evs, history st' = (evs ++ history st)%list /\ Forall silent evs.
Proof.
  intros (evs & Hh & Hf & Hc).
  assert (Hs : Forall silent evs).
  { eapply Forall_impl; [|exact Hf]; intros ev; destruct ev; simpl; tauto. }
  split; [rewrite Hc; apply replay_silent; exact Hs | exists evs; auto].
Qed.

End EvaluateRuns.

(** X6.  [evaluate_model] of test_hyperparameters.py, by the number of
    labels in the batches its loader yields.  With at least one label it
    returns the accuracy, having added the one line
    'Test Accuracy (name): xx.xx%' to the end of output.txt and printed the
    same line last.  With none it raises ZeroDivisionError, and output.txt
    is as it was: nothing was opened, written or printed. *)
Theorem evaluate_model_logs_or_divides_by_zero :
  forall (E : Env) (name : string) (model : Net) (test_loader : Loader) (st : state),
    let batches :=
      fst (iter_loader test_loader (snd (set_training model false (world st)))) in
    (total_labels batches <> O ->
     exists accuracy st',
       test_hyperparameters.evaluate_model name model test_loader st
       = (Ok accuracy, st') /\
       output_txt st'
       = output_txt st
         ++ ("Test Accuracy (" ++ name ++ "): " ++ fixed 2 accuracy ++ "%") ++ nl /\
       exists older,
         history st'
         = EPrint ("Test Accuracy (" ++ name ++ "): " ++ fixed 2 accuracy ++ "%")
           :: EWrite ("Test Accuracy (" ++ name ++ "): " ++ fixed 2 accuracy ++ "%")
           :: EOpen ModeA :: older) /\
    (total_labels batches = O ->
     exists st',
       test_hyperparameters.evaluate_model name model test_loader st
       = (Raise ZeroDivisionError, st') /\
       output_txt st' = output_txt st /\
       exists evs, history st' = (evs ++ history st)%list /\ Forall silent evs).
Proof.
  intros E name model test_loader st batches.
  unfold test_hyperparameters.evaluate_model.
  rewrite !bind_call_l.
  match goal with
  | |- context [bind (for_each ?bs ?body (O, O)) ?k ?st1] =>
      destruct (eval_tally_run model bs O O st1) as (c & st2 & Hloop & Hext);
      set (s1 := st1) in *
  end.
  apply extends_loop_event_output in Hext; destruct Hext as (Hout & evs & Hh & Hs).
  change (output_txt s1) with (output_txt st) in Hout.
  change (history s1) with (EIterate :: EMode false :: history st) in Hh.
  split; intro Htotal.
  - unfold bind at 1; rewrite Hloop.
    match goal with
    | |- context [test_hyperparameters.percentage c ?t] =>
        destruct (@percentage_returns E c t st2 Htotal) as (q & Hq)
    end.
    unfold bind at 1; rewrite Hq.
    exists q; eexists; split; [reflexivity|]; simpl; split.
    + rewrite Hout; reflexivity.
    + eexists; reflexivity.
  - unfold bind at 1; rewrite Hloop.
    exists st2; split; [|split; [exact Hout|]].
    + unfold bind at 1, test_hyperparameters.percentage, truediv.
      match goal with
      | |- context [Z.of_nat ?t] => change t with (total_labels batches)
      end.
      rewrite Htotal; reflexivity.
    + exists (evs ++ [EIterate; EMode false])%list; split.
      * rewrite Hh, <- app_assoc; reflexivity.
      * apply Forall_app; split; [exact Hs | repeat constructor].
Qed.

(** ** The exceptions of test_hyperparameters.py *)

Section RaisesOnly.
Context {E : Env}.

Lemma raises_only_ret (P : exn -> Prop) {A} (a : A) : raises_only P (ret a).
Proof. intros st e st' H; discriminate. Qed.

Lemma raises_only_raise (P : exn -> Prop) {A} (e : exn) :
  P e -> raises_only P (@raise E A e).
Proof. intros HP st e' st' H; inversion H; subst; exact HP. Qed.

Lemma raises_only_bind (P : exn -> Prop) {A B} (m : M A) (k : A -> M B) :
  raises_only P m -> (forall a, raises_only P (k a)) -> raises_only P (bind m k).
Proof.
  intros Hm Hk st e st'; unfold bind.
  destruct (m st) as [[a|e0] st1] eqn:Hrun; intro H.
  - eapply Hk; exact H.
  - inversion H; subst; eapply Hm; exact Hrun.
Qed.

Lemma raises_only_for_each (P : exn -> Prop) {A B} (xs : list A) (body : A -> B -> M B) :
  (forall x acc, In x xs -> raises_only P (body x acc)) ->
  forall acc, raises_only P (for_each xs body acc).
Proof.
  induction xs as [|x xs IH]; intros Hbody acc; simpl.
  - apply raises_only_ret.
  - apply raises_only_bind.
    + apply Hbody; left; reflexivity.
    + intro acc'; apply IH; intros; apply Hbody; right; assumption.
Qed.

Lemma raises_only_call (P : exn -> Prop) {A} (ev : event) (f : World -> A * World) :
  raises_only P (call ev f).
Proof. intros st e st' H; discriminate. Qed.

Lemma raises_only_print (P : exn -> Prop) (s : string) : raises_only P (print s).
Proof. intros st e st' H; discriminate. Qed.

Lemma raises_only_open_output (P : exn -> Prop) (mode : open_mode) :
  raises_only P (open_output mode).
Proof. intros st e st' H; discriminate. Qed.

Lemma raises_only_print_file (P : exn -> Prop) (s : string) :
  raises_only P (print_file s).
Proof. intros st e st' H; discriminate. Qed.

Lemma raises_only_truediv (P : exn -> Prop) (a b : Z) :
  P ZeroDivisionError -> raises_only P (truediv a b).
Proof.
  intro HP; unfold truediv; destruct (b =? 0)%Z;
    [apply raises_only_raise; exact HP | apply raises_only_ret].
Qed.

Lemma raises_only_fdiv (P : exn -> Prop) (x : float) (n : Z) :
  P ZeroDivisionError -> raises_only P (fdiv x n).
Proof.
  intro HP; unfold fdiv; destruct (n =? 0)%Z;
    [apply raises_only_raise; exact HP | apply raises_only_ret].
Qed.

End RaisesOnly.

Ltac raises_step :=
  match goal with
  | |- raises_only _ (bind _ _) => apply raises_only_bind; [|intros]
  | |- raises_only _ (ret _) => apply raises_only_ret
  | |- raises_only _ (call _ _) => apply raises_only_call
  | |- raises_only _ (print _) => apply raises_only_print
  | |- raises_only _ (open_output _) => apply raises_only_open_output
  | |- raises_only _ (print_file _) => apply raises_only_print_file
  | |- raises_only _ (truediv _ _) => apply raises_only_truediv; reflexivity
  | |- raises_only _ (fdiv _ _) => apply raises_only_fdiv; reflexivity
  | |- raises_only _ (for_each _ _ _) => apply raises_only_for_each; intros
  | |- raises_only _ (match ?x with _ => _ end) => destruct x
  end.

Section TestExceptions.
Context {E : Env}.
Import test_hyperparameters.

Lemma train_model_raises_only (model : Net) (train_loader val_loader : Loader)
      (n : Z) (optimizer : Optimizer) :
  raises_only is_zero_division (train_model model train_loader val_loader n optimizer).
Proof. unfold train_model, percentage; repeat raises_step. Qed.






End TestExceptions.



(** X8.  The edges of [train_model] of test_hyperparameters.py.  With
    [num_epochs <= 0] it returns four empty lists and does nothing at
    all.  With at least one epoch and a training loader of length 0 it
    raises ZeroDivisionError in the first epoch.  It raises nothing but
    ZeroDivisionError. *)
Theorem train_model_edges :
  forall (E : Env) (model : Net) (train_loader val_loader : Loader)
         (num_epochs : Z) (optimizer : Optimizer) (st : state),
    ((num_epochs <= 0)%Z ->
     test_hyperparameters.train_model model train_loader val_loader num_epochs optimizer st
     = (Ok (test_hyperparameters.mkCurves [] [] [] []), st)) /\
    ((1 <= num_epochs)%Z -> len_loader train_loader = O ->
     exists st',
       test_hyperparameters.train_model model train_loader val_loader num_epochs
                                        optimizer st
       = (Raise ZeroDivisionError, st')) /\
    (forall e st',
        test_hyperparameters.train_model model train_loader val_loader num_epochs
                                         optimizer st
        = (Raise e, st') ->
        e = ZeroDivisionError).
Proof.
  intros E model train_loader val_loader num_epochs optimizer st; split; [|split].
  - intro Hn; unfold test_hyperparameters.train_model, range.
    replace (Z.to_nat num_epochs) with O by lia; reflexivity.
  - intros Hn Hlen; unfold test_hyperparameters.train_model, range.
    destruct (Z.to_nat num_epochs) as [|k] eqn:Hk; [lia|].
    simpl seq; simpl map; simpl for_each.
    rewrite bind_assoc, bind_call_l, bind_assoc, bind_call_l, bind_assoc.
    match goal with
    | |- context [bind (for_each ?bs ?body (fzero, O, O)) ?k ?st1] =>
        destruct (loss_tally_returns (train_step model optimizer) ETrainStep
                                     bs fzero O O st1) as (l1 & c1 & st2 & Hloop);
        unfold bind at 1; rewrite Hloop
    end.
    rewrite bind_assoc; unfold bind at 1, fdiv; rewrite Hlen; simpl.
    eexists; reflexivity.
  - intros e st' H; exact (@train_model_raises_only E _ _ _ _ _ _ _ _ H).
Qed.

(** ** The accuracy curves *)

Section AccuracyCurves.
Context {E : Env}.

(** The tally of a loop that also sums the loss. *)
Lemma loss_tally_le (step : Batch -> World -> (float * nat) * World) (ev : event)
      (batches : list Batch) (st st' : state)
      (loss loss' : float) (correct total correct' total' : nat) :
  (forall b w, (snd (fst (step b w)) <= labels_size b)%nat) ->
  for_each batches
    (fun b '(running_loss, correct, total) =>
       '(loss, ncorrect) <- call ev (step b) ;;
       ret (fadd running_loss loss, (correct + ncorrect)%nat,
            (total + labels_size b)%nat))
    (loss, correct, total) st = (Ok (loss', correct', total'), st') ->
  (correct <= total)%nat -> (correct' <= total')%nat.
Proof.
  intros Hlaw Hrun Hle.
  apply (for_each_invariant
           (fun lct : float * nat * nat => (snd (fst lct) <= snd lct)%nat))
    in Hrun; [exact Hrun | | exact Hle].
  clear - Hlaw; intros b [[l c] t] st0 [[l' c'] t'] st1 _ Hbody Hinv; simpl in *.
  bind_inv Hbody. apply ret_ok in Hbody; destruct Hbody as [Heq _].
  inversion Heq; subst; clear Heq.
  unfold call in Hm; inversion Hm; subst; clear Hm.
  pose proof (Hlaw b (world st0)) as Hc.
  match goal with H : fst _ = _ |- _ => rewrite H in Hc end.
  simpl in Hc; lia.
Qed.

End AccuracyCurves.

(** X9.  Every entry of the two accuracy lists that [train_model] of
    test_hyperparameters.py returns lies between 0 and 100, when no batch
    has more correct predictions than labels, in training and in
    validation. *)
Theorem train_model_accuracies_in_range :
  forall (E : Env),
    Round64Laws E -> CountLaw E -> TrainCountLaw E ->
    forall model train_loader val_loader num_epochs optimizer st c st',
      test_hyperparameters.train_model model train_loader val_loader num_epochs
                                       optimizer st = (Ok c, st') ->
      Forall in_percent (test_hyperparameters.train_accs c) /\
      Forall in_percent (test_hyperparameters.val_accs c).
Proof.
  intros E RL CL TL model train_loader val_loader num_epochs optimizer st c st' Hrun.
  unfold test_hyperparameters.train_model in Hrun.
  apply (for_each_invariant
           (fun c => Forall in_percent (test_hyperparameters.train_accs c) /\
                     Forall in_percent (test_hyperparameters.val_accs c)))
    in Hrun; [exact Hrun | | split; constructor].
  clear - RL CL TL; intros epoch c0 s0 c1 s1 _ Hbody [Ht Hv].
  bind_inv Hbody. apply ret_ok in Hbody; destruct Hbody as [-> _]; simpl.
  repeat match goal with
         | Hloop : for_each _ _ (fzero, O, O) _ = (Ok (_, ?c, ?t), _),
           Hp : test_hyperparameters.percentage ?c ?t _ = (Ok ?q, _) |- _ =>
             assert (in_percent q);
             [ eapply percentage_in_range; [|exact Hp];
               eapply loss_tally_le; [|exact Hloop|apply Nat.le_0_l];
               first [ intros b w; apply TL | intros b w; apply CL ]
             | clear Hp ]
         end.
  split; apply Forall_app; split; auto.
Qed.

Lemma toy_train_count_law (skill : nat -> nat) : TrainCountLaw (toy skill).
Proof. intros net o b w; simpl; apply Nat.le_min_l. Qed.

(** Three epochs over a training loader of two batches. *)
Lemma train_model_accuracies_in_range_witness :
  exists c st',
    @test_hyperparameters.train_model (toy (fun _ => 1%nat))
      O [2; 1]%nat [2]%nat 3 (Adam PNone) (toy_state _) = (Ok c, st') /\
    Forall in_percent (test_hyperparameters.train_accs c) /\
    Forall in_percent (test_hyperparameters.val_accs c).
Proof.
  eexists; eexists; split; [vm_compute; reflexivity|].
  apply (@train_model_accuracies_in_range (toy (fun _ => 1%nat))
           (toy_round64_laws _) (@toy_count_law _) (@toy_train_count_law _)
           O [2; 1]%nat [2]%nat 3%Z (Adam PNone) (toy_state _) _
           (snd (@test_hyperparameters.train_model (toy (fun _ => 1%nat))
                   O [2; 1]%nat [2]%nat 3 (Adam PNone) (toy_state _)))).
  vm_compute; reflexivity.
Defined.

(** ** ComplexCNN.py and output.txt *)

Section NoFile.
Context {E : Env}.
Import ComplexCNN.

Lemma replay_no_file (evs : list event) (c : string) :
  Forall no_file evs -> replay evs c = c.
Proof.
  induction 1 as [|ev evs Hev _ IH]; simpl; [reflexivity|].
  destruct ev; simpl in Hev; try contradiction; assumption.
Qed.

Lemma keeps_py_range (P : event -> Prop) (v : pyval) : keeps P (py_range v).
Proof. unfold py_range; frame. Qed.

Lemma keeps_unpack_two (P : event -> Prop) {A} (t : list A) : keeps P (unpack_two t).
Proof. unfold unpack_two; frame. Qed.

Lemma iterate_keeps (o : obj) : keeps no_file (iterate o).
Proof. unfold iterate; frame. Qed.

Lemma complex_train_model_keeps (model : Net) (trainloader valloader : obj)
      (optimizer : Optimizer) (epochs : pyval) :
  keeps no_file (train_model model trainloader valloader optimizer epochs).
Proof.
  unfold train_model.
  repeat (frame_step; try apply keeps_py_range; try apply iterate_keeps).
Qed.

Lemma complex_evaluate_model_keeps (model : Net) (testloader : obj) :
  keeps no_file (evaluate_model model testloader).
Proof.
  unfold evaluate_model.
  repeat (frame_step; try apply iterate_keeps).
Qed.

Lemma load_and_visualize_data_keeps (batch_size : pyval) :
  keeps no_file (load_and_visualize_data batch_size).
Proof. unfold load_and_visualize_data; frame. Qed.

Lemma tuning_step_keeps (loader : pyval -> M (list obj)) (params : dict pyval)
      (v : tuning) :
  (forall batch_size, keeps no_file (loader batch_size)) ->
  keeps no_file (tuning_step loader params v).
Proof.
  intro Hloader.
  unfold tuning_step, select_model, select_optimizer, dataset_of, record_result.
  repeat (frame_step;
          try apply Hloader; try apply keeps_unpack_two;
          try apply complex_train_model_keeps;
          try apply complex_evaluate_model_keeps).
Qed.

Lemma hyperparameter_tuning_with_keeps (loader : pyval -> M (list obj))
      (param_grid : dict (list pyval)) :
  (forall batch_size, keeps no_file (loader batch_size)) ->
  keeps no_file (hyperparameter_tuning_with loader param_grid).
Proof.
  intro Hloader; unfold hyperparameter_tuning_with, unzip_items.
  repeat (frame_step; try (apply tuning_step_keeps; exact Hloader)).
Qed.

End NoFile.

(** X10.  ComplexCNN.py never touches output.txt: after any run of its
    [train_model], of its [evaluate_model] or of [hyperparameter_tuning],
    returning or raising, the file is as it was and no event of the run
    opens it or writes to it. *)
Theorem complexcnn_leaves_output_txt_alone :
  forall (E : Env),
    (forall model trainloader valloader optimizer epochs st,
        let st' := snd (ComplexCNN.train_model model trainloader valloader
                                               optimizer epochs st) in
        output_txt st' = output_txt st /\
        exists evs, history st' = (evs ++ history st)%list /\ Forall no_file evs) /\
    (forall model testloader st,
        let st' := snd (ComplexCNN.evaluate_model model testloader st) in
        output_txt st' = output_txt st /\
        exists evs, history st' = (evs ++ history st)%list /\ Forall no_file evs) /\
    (forall param_grid st,
        let st' := snd (ComplexCNN.hyperparameter_tuning param_grid st) in
        output_txt st' = output_txt st /\
        exists evs, history st' = (evs ++ history st)%list /\ Forall no_file evs).
Proof.
  intro E.
  assert (Hext : forall st st', extends no_file st st' ->
                   output_txt st' = output_txt st /\
                   exists evs, history st' = (evs ++ history st)%list /\ Forall no_file evs).
  { intros st st' (evs & Hh & Hf & Hc); split.
    - rewrite Hc; apply replay_no_file; exact Hf.
    - exists evs; split; assumption. }
  split; [|split]; intros; apply Hext.
  - apply complex_train_model_keeps.
  - apply complex_evaluate_model_keeps.
  - apply hyperparameter_tuning_with_keeps; intro; apply load_and_visualize_data_keeps.
Qed.

(** ** The results and the buckets of [test_hyperparams] *)

Section Folding.
Context {E : Env}.

(** A loop whose every pass updates a view of the loop variables by
    [step] ends with the fold of [step] over the elements. *)
Lemma for_each_fold {A B C} (f : B -> C) (step : C -> A -> C)
      (xs : list A) (body : A -> B -> M B) :
  (forall x acc st acc' st',
      body x acc st = (Ok acc', st') -> f acc' = step (f acc) x) ->
  forall acc st acc' st',
    for_each xs body acc st = (Ok acc', st') ->
    f acc' = fold_left step xs (f acc).
Proof.
  intro Hbody; induction xs as [|x xs IH]; intros acc st acc' st' Hrun; simpl in Hrun.
  - apply ret_ok in Hrun; destruct Hrun as [-> _]; reflexivity.
  - apply bind_ok in Hrun; destruct Hrun as (acc1 & st1 & H1 & H2).
    simpl; rewrite <- (Hbody _ _ _ _ _ H1); eapply IH; exact H2.
Qed.

Lemma fold_left_map_step {A B C} (step : C -> B -> C) (g : A -> B) (xs : list A) (c : C) :
  fold_left step (map g xs) c = fold_left (fun c x => step c (g x)) xs c.
Proof. revert c; induction xs as [|x xs IH]; intro c; simpl; [reflexivity | apply IH]. Qed.

Lemma fold_left_flat_map_step {A B C} (step : C -> B -> C) (g : A -> list B)
      (xs : list A) (c : C) :
  fold_left step (flat_map g xs) c = fold_left (fun c x => fold_left step (g x) c) xs c.
Proof.
  revert c; induction xs as [|x xs IH]; intro c; simpl; [reflexivity|].
  rewrite fold_left_app; apply IH.
Qed.

Lemma fold_left_ext_step {A C} (step step' : C -> A -> C) (xs : list A) (c : C) :
  (forall c x, step c x = step' c x) -> fold_left step xs c = fold_left step' xs c.
Proof.
  intro H; revert c; induction xs as [|x xs IH]; intro c; simpl; [reflexivity|].
  rewrite H; apply IH.
Qed.

Lemma dict_keys_set {V} (d : dict V) (k : string) (v : V) :
  dict_keys (dict_set d k v) = add_key (dict_keys d) k.
Proof.
  unfold add_key; destruct (in_dec string_dec k (dict_keys d)) as [Hin|Hnin].
  - induction d as [|[k' v'] d IH]; simpl in *; [contradiction|].
    destruct (String.eqb_spec k' k) as [->|Hne]; simpl; [reflexivity|].
    f_equal; apply IH; destruct Hin; [congruence | assumption].
  - rewrite dict_set_fresh by exact Hnin.
    rewrite dict_keys_app; reflexivity.
Qed.

Lemma add_key_incl (keys : list string) (k k' : string) :
  In k' keys -> In k' (add_key keys k).
Proof.
  unfold add_key; destruct (in_dec string_dec k keys); [auto|].
  intro H; apply in_or_app; left; exact H.
Qed.

Lemma add_key_in (keys : list string) (k : string) : In k (add_key keys k).
Proof.
  unfold add_key; destruct (in_dec string_dec k keys); [assumption|].
  apply in_or_app; right; left; reflexivity.
Qed.

Lemma fold_add_key_incl (l keys : list string) (k : string) :
  In k keys -> In k (fold_left add_key l keys).
Proof.
  revert keys; induction l as [|x l IH]; intros keys H; simpl; [exact H|].
  apply IH, add_key_incl; exact H.
Qed.

Lemma fold_add_key_in (l keys : list string) (k : string) :
  In k l -> In k (fold_left add_key l keys).
Proof.
  revert keys; induction l as [|x l IH]; intros keys; simpl; [intros []|].
  intros [-> | H]; [apply fold_add_key_incl, add_key_in | apply IH; exact H].
Qed.

Lemma add_key_NoDup (keys : list string) (k : string) :
  NoDup keys -> NoDup (add_key keys k).
Proof.
  unfold add_key; destruct (in_dec string_dec k keys) as [Hin|Hnin]; [auto|].
  intro H; apply NoDup_app; [exact H | repeat constructor; intros [] |].
  intros a Ha [<- | []]; exact (Hnin Ha).
Qed.

Lemma fold_add_key_NoDup (l keys : list string) :
  NoDup keys -> NoDup (fold_left add_key l keys).
Proof.
  revert keys; induction l as [|x l IH]; intros keys H; simpl; [exact H|].
  apply IH, add_key_NoDup; exact H.
Qed.

Lemma add_key_length (keys : list string) (k : string) :
  (List.length (add_key keys k) <= S (List.length keys))%nat.
Proof.
  unfold add_key; destruct (in_dec string_dec k keys); [lia|].
  rewrite length_app; simpl; lia.
Qed.

Lemma fold_add_key_length (l keys : list string) :
  (List.length (fold_left add_key l keys) <= List.length keys + List.length l)%nat.
Proof.
  revert keys; induction l as [|x l IH]; intros keys; simpl; [lia|].
  specialize (IH (add_key keys x)); pose proof (add_key_length keys x); lia.
Qed.

Lemma fold_add_key_fresh (l keys : list string) :
  NoDup (keys ++ l) -> fold_left add_key l keys = (keys ++ l)%list.
Proof.
  revert keys; induction l as [|x l IH]; intros keys H; simpl.
  - rewrite app_nil_r; reflexivity.
  - assert (Hx : ~ In x keys).
    { intro Hin; apply NoDup_remove_2 in H; apply H, in_or_app; left; exact Hin. }
    unfold add_key at 2; destruct (in_dec string_dec x keys); [contradiction|].
    rewrite IH; rewrite <- app_assoc; [reflexivity | exact H].
Qed.

Lemma dict_get_in_keys {V} (d : dict V) (k : string) :
  In k (dict_keys d) -> exists v, dict_get d k = Some v.
Proof.
  induction d as [|[k' v'] d IH]; simpl; [intros []|].
  destruct (String.eqb_spec k' k) as [->|Hne]; [eexists; reflexivity|].
  intros [H | H]; [congruence | apply IH; exact H].
Qed.

End Folding.

Section ResultKeys.
Context {E : Env}.
Import test_hyperparameters.

Lemma run_test_keys (g : globals) (num_tests : Z) (lr : Q) (bs ne : Z)
      (s s' : search) (st st' : state) :
  run_test g num_tests lr bs ne s st = (Ok s', st') ->
  dict_keys (results s') = add_key (dict_keys (results s)) (key_of lr bs ne).
Proof.
  unfold run_test; intro H; bind_inv H.
  apply ret_ok in H; destruct H as [-> _]; simpl; apply dict_keys_set.
Qed.

(** The keys of the results after the grid loop: the keys of the runs,
    each put in when it first comes. *)
Lemma grid_loop_keys (g : globals) (num_tests : Z) (s s' : search) (st st' : state) :
  grid_loop g num_tests s st = (Ok s', st') ->
  dict_keys (results s') = fold_left add_key grid_keys (dict_keys (results s)).
Proof.
  unfold grid_loop, grid_keys; intro H.
  rewrite fold_left_flat_map_step.
  apply (for_each_fold (fun s => dict_keys (results s))
           (fun keys lr =>
              fold_left add_key
                (flat_map (fun bs => map (fun ne => key_of lr bs ne) num_epochs) batch_size)
                keys)) in H; [exact H|].
  intros lr s1 st1 s2 st2 H1.
  rewrite fold_left_flat_map_step.
  apply (for_each_fold (fun s => dict_keys (results s))
           (fun keys bs =>
              fold_left add_key (map (fun ne => key_of lr bs ne) num_epochs) keys))
    in H1; [exact H1|].
  intros bs s3 st3 s4 st4 H2.
  rewrite fold_left_map_step.
  apply (for_each_fold (fun s => dict_keys (results s))
           (fun keys ne => add_key keys (key_of lr bs ne))) in H2; [exact H2|].
  intros ne s5 st5 s6 st6 H3; eapply run_test_keys; exact H3.
Qed.

Lemma test_hyperparams_keys (g : globals) (st st' : state) (s : search)
      (la : pyval * string) :
  test_hyperparams g st = (Ok (s, la), st') ->
  dict_keys (results s) = fold_left add_key grid_keys [].
Proof.
  rewrite test_hyperparams_unfold; unfold after_banner; intro H.
  bind_inv H. apply ret_ok in H; destruct H as [Heq _].
  inversion Heq; subst; clear Heq.
  match goal with
  | Hloop : grid_loop _ _ _ _ = _ |- _ => apply grid_loop_keys in Hloop; exact Hloop
  end.
Qed.

Lemma in_grid_keys (lr : Q) (bs ne : Z) :
  In lr learning_rate -> In bs batch_size -> In ne num_epochs ->
  In (key_of lr bs ne) grid_keys.
Proof.
  intros Hlr Hbs Hne; unfold grid_keys.
  apply in_flat_map; exists lr; split; [exact Hlr|].
  apply in_flat_map; exists bs; split; [exact Hbs|].
  apply in_map; exact Hne.
Qed.

Lemma grid_keys_length : List.length grid_keys = 252%nat.
Proof. reflexivity. Qed.

End ResultKeys.

(** The grid search of test_hyperparameters.py goes through in the small
    environment. *)
Lemma toy_grid_search_returns :
  @returned (toy (fun _ => 1%nat)) _
    (@test_hyperparameters.test_hyperparams (toy (fun _ => 1%nat))
       (toy_globals _ (PStr "Adam")) (toy_state _)) = true.
Proof. vm_compute; reflexivity. Qed.

(** X11.  After a [test_hyperparams] that returns, every combination of
    the three lists has a record in [results] under its key
    'lr=..., bs=..., ne=...'; no key comes twice and there are at most
    252 records; and when the 252 keys are all different, the keys of
    [results] are exactly those, in the order of the runs. *)
Theorem every_run_has_a_result :
  forall (E : Env) (g : test_hyperparameters.globals) (st st' : state)
         (s : test_hyperparameters.search) (largest_acc : pyval * string),
    test_hyperparameters.test_hyperparams g st = (Ok (s, largest_acc), st') ->
    (forall lr bs ne,
        In lr test_hyperparameters.learning_rate ->
        In bs test_hyperparameters.batch_size ->
        In ne test_hyperparameters.num_epochs ->
        exists r,
          dict_get (test_hyperparameters.results s)
                   (test_hyperparameters.key_of lr bs ne) = Some r) /\
    NoDup (dict_keys (test_hyperparameters.results s)) /\
    (List.length (test_hyperparameters.results s) <= 252)%nat /\
    (NoDup grid_keys -> dict_keys (test_hyperparameters.results s) = grid_keys).
Proof.
  intros E g st st' s la Hrun.
  pose proof (test_hyperparams_keys _ _ Hrun) as Hkeys.
  split; [|split; [|split]].
  - intros lr bs ne Hlr Hbs Hne; apply dict_get_in_keys.
    rewrite Hkeys; apply fold_add_key_in, in_grid_keys; assumption.
  - rewrite Hkeys; apply fold_add_key_NoDup; constructor.
  - replace (List.length (test_hyperparameters.results s))
      with (List.length (dict_keys (test_hyperparameters.results s)))
      by apply length_map.
    rewrite Hkeys.
    pose proof (fold_add_key_length (@grid_keys E) []) as Hlen.
    rewrite grid_keys_length in Hlen; exact Hlen.
  - intro Hnd; rewrite Hkeys; apply fold_add_key_fresh; exact Hnd.
Qed.

(** The run of the small environment. *)
Lemma every_run_has_a_result_witness :
  match fst (@test_hyperparameters.test_hyperparams (toy (fun _ => 1%nat))
               (toy_globals _ (PStr "Adam")) (toy_state _)) with
  | Ok (s, _) =>
      NoDup (dict_keys (test_hyperparameters.results s)) /\
      (List.length (test_hyperparameters.results s) <= 252)%nat
  | Raise _ => False
  end.
Proof.
  pose proof toy_grid_search_returns as Hret; unfold returned in Hret.
  destruct (@test_hyperparameters.test_hyperparams (toy (fun _ => 1%nat))
              (toy_globals _ (PStr "Adam")) (toy_state _))
    as [[[s la]|e] st'] eqn:Hrun; simpl in *; [|discriminate].
  destruct (@every_run_has_a_result (toy (fun _ => 1%nat))
              (toy_globals _ (PStr "Adam")) (toy_state _) st' s la Hrun)
    as (_ & H2 & H3 & _).
  split; assumption.
Defined.

Section Buckets.
Context {E : Env}.
Import test_hyperparameters.

Lemma index_lt {A} (eqb : A -> A -> bool) (l : list A) (x : A) (i : nat) :
  index eqb l x = Some i -> (i < List.length l)%nat.
Proof.
  revert i; induction l as [|y l IH]; intros i; simpl; [discriminate|].
  destruct (eqb y x); [intro H; inversion H; lia|].
  destruct (index eqb l x) as [j|]; [|discriminate].
  intro H; inversion H; subst; specialize (IH j eq_refl); lia.
Qed.

Lemma append_at_length {A} (ll : list (list A)) (i : nat) (x : A) :
  List.length (append_at ll i x) = List.length ll.
Proof.
  revert i; induction ll as [|l ll IH]; intros [|i]; simpl; auto.
Qed.

Lemma append_at_held (ll : list (list Q)) (i : nat) (x : Q) :
  (i < List.length ll)%nat -> held (append_at ll i x) = S (held ll).
Proof.
  unfold held; revert i; induction ll as [|l ll IH]; intros [|i] H; simpl in *; try lia.
  - rewrite !length_app; simpl; lia.
  - rewrite !length_app, IH by lia; lia.
Qed.

Lemma append_for_ok {A} (eqb : A -> A -> bool) (l : list A) (x : A)
      (ll ll' : list (list Q)) (acc : Q) (st st' : state) :
  append_for eqb l x ll acc st = (Ok ll', st') ->
  List.length ll = List.length l ->
  List.length ll' = List.length l /\ held ll' = S (held ll).
Proof.
  unfold append_for; destruct (index eqb l x) as [i|] eqn:Hi; [|discriminate].
  intros H Hlen; apply ret_ok in H; destruct H as [-> _].
  apply index_lt in Hi; split.
  - rewrite append_at_length; exact Hlen.
  - apply append_at_held; lia.
Qed.

Lemma run_test_buckets (g : globals) (num_tests : Z) (lr : Q) (bs ne : Z)
      (s s' : search) (st st' : state) :
  run_test g num_tests lr bs ne s st = (Ok s', st') ->
  buckets_follow s -> buckets_follow s'.
Proof.
  unfold run_test; intros H (L1 & L2 & L3 & H1 & H2 & H3); bind_inv H.
  apply ret_ok in H; destruct H as [-> _].
  repeat match goal with
         | Ha : append_for _ _ _ _ _ _ = (Ok _, _) |- _ =>
             apply append_for_ok in Ha; [destruct Ha as [? ?] | assumption]
         end.
  unfold buckets_follow; simpl; repeat split; try assumption; lia.
Qed.

Lemma grid_loop_buckets (g : globals) (num_tests : Z) (s s' : search) (st st' : state) :
  grid_loop g num_tests s st = (Ok s', st') ->
  buckets_follow s -> buckets_follow s'.
Proof.
  unfold grid_loop; intros H Hinv.
  apply (for_each_invariant buckets_follow) in H; [exact H | | exact Hinv].
  intros lr s1 st1 s2 st2 _ H1 Hinv1.
  apply (for_each_invariant buckets_follow) in H1; [exact H1 | | exact Hinv1].
  intros bs s3 st3 s4 st4 _ H2 Hinv2.
  apply (for_each_invariant buckets_follow) in H2; [exact H2 | | exact Hinv2].
  intros ne s5 st5 s6 st6 _ H3 Hinv3; eapply run_test_buckets; eassumption.
Qed.

End Buckets.

(** X12.  After a [test_hyperparams] that returns, [lr_avg] has 7
    buckets, [bs_avg] and [ne_avg] have 6 each, and each of the three
    holds 252 accuracies in all: every run put its accuracy into one
    bucket of each. *)
Theorem every_accuracy_is_in_one_bucket_of_each :
  forall (E : Env) (g : test_hyperparameters.globals) (st st' : state)
         (s : test_hyperparameters.search) (largest_acc : pyval * string),
    test_hyperparameters.test_hyperparams g st = (Ok (s, largest_acc), st') ->
    List.length (test_hyperparameters.lr_avg s) = 7%nat /\
    List.length (test_hyperparameters.bs_avg s) = 6%nat /\
    List.length (test_hyperparameters.ne_avg s) = 6%nat /\
    held (test_hyperparameters.lr_avg s) = 252%nat /\
    held (test_hyperparameters.bs_avg s) = 252%nat /\
    held (test_hyperparameters.ne_avg s) = 252%nat.
Proof.
  intros E g st st' s la Hrun.
  pose proof (test_hyperparams_run_count _ _ Hrun) as Hcount.
  rewrite test_hyperparams_unfold in Hrun; unfold after_banner in Hrun.
  bind_inv Hrun. apply ret_ok in Hrun; destruct Hrun as [Heq _].
  inversion Heq; subst; clear Heq.
  match goal with
  | Hloop : test_hyperparameters.grid_loop _ _ _ _ = _ |- _ =>
      apply grid_loop_buckets in Hloop;
      [destruct Hloop as (L1 & L2 & L3 & H1 & H2 & H3) | repeat split]
  end.
  rewrite Hcount in H1, H2, H3.
  repeat split; try assumption; lia.
Qed.

(** The run of the small environment. *)
Lemma every_accuracy_is_in_one_bucket_of_each_witness :
  match fst (@test_hyperparameters.test_hyperparams (toy (fun _ => 1%nat))
               (toy_globals _ (PStr "Adam")) (toy_state _)) with
  | Ok (s, _) => held (test_hyperparameters.lr_avg s) = 252%nat
  | Raise _ => False
  end.
Proof.
  pose proof toy_grid_search_returns as Hret; unfold returned in Hret.
  destruct (@test_hyperparameters.test_hyperparams (toy (fun _ => 1%nat))
              (toy_globals _ (PStr "Adam")) (toy_state _))
    as [[[s la]|e] st'] eqn:Hrun; simpl in *; [|discriminate].
  destruct (@every_accuracy_is_in_one_bucket_of_each (toy (fun _ => 1%nat))
              (toy_globals _ (PStr "Adam")) (toy_state _) st' s la Hrun)
    as (_ & _ & _ & H & _).
  exact H.
Defined.

(** ** The loops of ComplexCNN.py on their own *)

Section ComplexLoops.
Context {E : Env}.
Import ComplexCNN.

Lemma complex_train_model_raises_only (model : Net) (trainloader valloader : Loader)
      (optimizer : Optimizer) (n : Z) :
  raises_only is_zero_division
              (train_model model (OLoader trainloader) (OLoader valloader)
                           optimizer (PInt n)).
Proof. unfold train_model, py_range, iterate; repeat raises_step. Qed.

End ComplexLoops.

(** X13.  The edges of [train_model] of ComplexCNN.py.  With an [epochs]
    that is neither an int nor a bool it raises TypeError right after
    [model.to(device)], before any pass over the data.  With an int
    [epochs <= 0] it only prints 'Finished Training' and returns.  With
    an int [epochs] and two loaders it raises nothing but
    ZeroDivisionError. *)
Theorem complex_train_model_edges :
  forall (E : Env) (model : Net) (trainloader valloader : ComplexCNN.obj)
         (optimizer : Optimizer) (st : state),
    (forall epochs,
        is_int epochs = false ->
        exists msg,
          ComplexCNN.train_model model trainloader valloader optimizer epochs st
          = (Raise (TypeError msg),
             mkState (snd (to_device model (world st))) (output_txt st)
                     (EToDevice :: history st))) /\
    (forall n,
        (n <= 0)%Z ->
        ComplexCNN.train_model model trainloader valloader optimizer (PInt n) st
        = (Ok tt,
           mkState (snd (to_device model (world st))) (output_txt st)
                   (EPrint "Finished Training" :: EToDevice :: history st))) /\
    (forall train_loader val_loader n e st',
        ComplexCNN.train_model model (ComplexCNN.OLoader train_loader)
                               (ComplexCNN.OLoader val_loader) optimizer (PInt n) st
        = (Raise e, st') ->
        e = ZeroDivisionError).
Proof.
  intros E model trainloader valloader optimizer st; split; [|split].
  - intros epochs Hint; unfold ComplexCNN.train_model; rewrite bind_call_l.
    destruct epochs; try discriminate; eexists; reflexivity.
  - intros n Hn; unfold ComplexCNN.train_model; rewrite bind_call_l.
    unfold py_range, range; replace (Z.to_nat n) with O by lia; reflexivity.
  - intros train_loader val_loader n e st' H.
    exact (@complex_train_model_raises_only E _ _ _ _ _ _ _ _ H).
Qed.

(** ** The sizes of the tensors in the three networks *)

Section ShapeLemmas.
Import Shapes.

Lemma andThen_some {A B} (o : option A) (k : A -> option B) (b : B) :
  andThen o k = Some b -> exists a, o = Some a /\ k a = Some b.
Proof. destruct o as [a|]; simpl; [intro H; exists a; auto | discriminate]. Qed.

Lemma conv2d_same (cin cout : nat) (x : nchw) :
  channels x = cin -> (1 <= height x)%nat -> (1 <= width x)%nat ->
  conv2d cin cout 3 1 x = Some (mkNCHW (batch x) cout (height x) (width x)).
Proof.
  intros <- Hh Hw; unfold conv2d; rewrite Nat.eqb_refl; simpl negb; cbv iota.
  destruct (Nat.ltb_spec (height x + 2 * 1) 3); [lia|].
  destruct (Nat.ltb_spec (width x + 2 * 1) 3); [lia|].
  simpl orb; cbv iota; repeat f_equal; lia.
Qed.

Lemma conv2d_some (cin cout k p : nat) (x y : nchw) :
  conv2d cin cout k p x = Some y ->
  channels x = cin /\
  (k <= height x + 2 * p)%nat /\ (k <= width x + 2 * p)%nat /\
  y = mkNCHW (batch x) cout (height x + 2 * p - k + 1) (width x + 2 * p - k + 1).
Proof.
  unfold conv2d; destruct (Nat.eqb_spec (channels x) cin); simpl negb; cbv iota;
    [|discriminate].
  destruct (Nat.ltb_spec (height x + 2 * p) k); [discriminate|].
  destruct (Nat.ltb_spec (width x + 2 * p) k); [discriminate|].
  simpl orb; cbv iota; intro Heq; inversion Heq; auto.
Qed.

Lemma max_pool2d_some (x y : nchw) :
  max_pool2d x = Some y ->
  y = mkNCHW (batch x) (channels x) (height x / 2) (width x / 2).
Proof.
  unfold max_pool2d; destruct (_ || _); [discriminate|].
  intro H; inversion H; reflexivity.
Qed.

Lemma max_pool2d_big (x : nchw) :
  (2 <= height x)%nat -> (2 <= width x)%nat ->
  max_pool2d x = Some (mkNCHW (batch x) (channels x) (height x / 2) (width x / 2)).
Proof.
  intros Hh Hw; unfold max_pool2d.
  destruct (Nat.ltb_spec (height x) 2); [lia|].
  destruct (Nat.ltb_spec (width x) 2); [lia|]; reflexivity.
Qed.

Lemma batch_norm2d_some (c : nat) (training : bool) (x y : nchw) :
  batch_norm2d c training x = Some y -> channels x = c /\ y = x.
Proof.
  unfold batch_norm2d; destruct (Nat.eqb_spec (channels x) c); simpl; [|discriminate].
  destruct (_ && _); [discriminate|].
  intro H; inversion H; subst; split; reflexivity.
Qed.

Lemma batch_norm2d_many (c : nat) (training : bool) (x : nchw) :
  channels x = c -> (batch x * height x * width x <> 1)%nat ->
  batch_norm2d c training x = Some x.
Proof.
  intros <- Hmany; unfold batch_norm2d; rewrite Nat.eqb_refl; simpl negb; cbv iota.
  destruct (Nat.eqb_spec (batch x * height x * width x) 1); [contradiction|].
  rewrite andb_false_r; reflexivity.
Qed.

Lemma add__some (x residual y : nchw) : add_ x residual = Some y -> y = x.
Proof.
  unfold add_; destruct (_ && _); [|discriminate].
  intro H; inversion H; reflexivity.
Qed.

Lemma add__same (x : nchw) : add_ x x = Some x.
Proof. unfold add_; rewrite !Nat.eqb_refl; reflexivity. Qed.



Lemma view_flat_some (x : nchw) (r c : nat) :
  view_flat x = Some (r, c) ->
  r = batch x /\ c = (channels x * height x * width x)%nat.
Proof.
  unfold view_flat; destruct (batch x =? 0)%nat; [discriminate|].
  intro H; inversion H; auto.
Qed.

Lemma linear_some (fin fout : nat) (x y : nat * nat) :
  linear fin fout x = Some y -> snd x = fin /\ y = (fst x, fout).
Proof.
  unfold linear; destruct (Nat.eqb_spec (snd x) fin); [|discriminate].
  intro H; inversion H; auto.
Qed.

Lemma linear_fits (fin fout r : nat) : linear fin fout (r, fin) = Some (r, fout).
Proof. unfold linear; simpl; rewrite Nat.eqb_refl; reflexivity. Qed.

End ShapeLemmas.

(** Take a chain of layers that gave a size apart. *)
Ltac layers_inv H :=
  repeat match type of H with
         | Shapes.andThen _ _ = Some _ =>
             let a := fresh "a" in
             let Ha := fresh "Ha" in
             apply andThen_some in H; destruct H as (a & Ha & H)
         end.

Ltac shape_norm :=
  cbn [Shapes.andThen Shapes.batch Shapes.channels Shapes.height Shapes.width
       Nat.div Nat.divmod fst].


Section MoreShapeLemmas.
Import Shapes.

Lemma conv2d_pointwise (cin cout : nat) (x : nchw) :
  channels x = cin -> (1 <= height x)%nat -> (1 <= width x)%nat ->
  conv2d cin cout 1 0 x = Some (mkNCHW (batch x) cout (height x) (width x)).
Proof.
  intros <- Hh Hw; unfold conv2d; rewrite Nat.eqb_refl; simpl negb; cbv iota.
  destruct (Nat.ltb_spec (height x + 2 * 0) 1); [lia|].
  destruct (Nat.ltb_spec (width x + 2 * 0) 1); [lia|].
  simpl orb; cbv iota; repeat f_equal; lia.
Qed.

Lemma view_flat_batch (x : nchw) :
  (1 <= batch x)%nat ->
  view_flat x = Some (batch x, (channels x * height x * width x)%nat).
Proof.
  intro H; unfold view_flat; destruct (Nat.eqb_spec (batch x) 0); [lia | reflexivity].
Qed.

Lemma conv2d_same_some (cin cout : nat) (x y : nchw) :
  conv2d cin cout 3 1 x = Some y ->
  channels x = cin /\ (1 <= height x)%nat /\ (1 <= width x)%nat /\
  y = mkNCHW (batch x) cout (height x) (width x).
Proof.
  intro H; apply conv2d_some in H; destruct H as (Hc & Hh & Hw & ->).
  repeat split; [assumption | lia | lia |].
  f_equal; lia.
Qed.

Lemma conv2d_pointwise_some (cin cout : nat) (x y : nchw) :
  conv2d cin cout 1 0 x = Some y ->
  channels x = cin /\ (1 <= height x)%nat /\ (1 <= width x)%nat /\
  y = mkNCHW (batch x) cout (height x) (width x).
Proof.
  intro H; apply conv2d_some in H; destruct H as (Hc & Hh & Hw & ->).
  repeat split; [assumption | lia | lia |].
  f_equal; lia.
Qed.

End MoreShapeLemmas.

(** One layer of a forward pass on a size that it takes. *)
Ltac layer_side := shape_norm; first [reflexivity | lia | nia].

Ltac forward_step :=
  first [ rewrite conv2d_same by layer_side
        | rewrite conv2d_pointwise by layer_side
        | rewrite max_pool2d_big by layer_side
        | rewrite batch_norm2d_many by layer_side
        | rewrite add__same
        | rewrite view_flat_batch by layer_side
        | rewrite linear_fits ];
  shape_norm.

Ltac layers_facts :=
  repeat match goal with
         | Hc : Shapes.conv2d _ _ _ _ _ = Some _ |- _ =>
             apply conv2d_some in Hc; destruct Hc as (? & ? & ? & ?); subst
         | Hp : Shapes.max_pool2d _ = Some _ |- _ =>
             apply max_pool2d_some in Hp; subst
         | Hb : Shapes.batch_norm2d _ _ _ = Some _ |- _ =>
             apply batch_norm2d_some in Hb; destruct Hb as [? ?]; subst
         | Ha : Shapes.add_ _ _ = Some _ |- _ =>
             apply add__some in Ha; subst
         | Hl : Shapes.linear _ _ _ = Some _ |- _ =>
             apply linear_some in Hl; destruct Hl as [? ?]; subst
         end.

(** The size after one layer of a chain that gave a size, with the sizes
    kept in normal form. *)
Ltac layer_fact :=
  match goal with
  | Hc : Shapes.conv2d _ _ 3 1 _ = Some _ |- _ =>
      apply conv2d_same_some in Hc; destruct Hc as (? & ? & ? & ?)
  | Hc : Shapes.conv2d _ _ 1 0 _ = Some _ |- _ =>
      apply conv2d_pointwise_some in Hc; destruct Hc as (? & ? & ? & ?)
  | Hp : Shapes.max_pool2d _ = Some _ |- _ => apply max_pool2d_some in Hp
  | Hb : Shapes.batch_norm2d _ _ _ = Some _ |- _ =>
      apply batch_norm2d_some in Hb; destruct Hb as [? ?]
  | Ha : Shapes.add_ _ _ = Some _ |- _ => apply add__some in Ha
  | Hv : Shapes.view_flat _ = Some ?a |- _ =>
      destruct a; apply view_flat_some in Hv; destruct Hv as [? ?]
  | Hl : Shapes.linear _ _ _ = Some _ |- _ =>
      apply linear_some in Hl; destruct Hl as [? ?]
  end;
  subst;
  cbn [fst snd Shapes.batch Shapes.channels Shapes.height Shapes.width] in *.

(** X15.  [CNN.forward] of test_hyperparameters.py on a batch of
    [n >= 1] images of 3x32x32 gives [n] rows of 10 scores.  Whenever it
    gives a size at all, the rows are as many as the images, with 10
    scores each, the images had 3 channels and 64 positions were left
    after the second pooling: with [x.view(x.size(0), -1)] any other
    image size is refused by [fc1], as 3x64x64 is. *)
Theorem test_cnn_sizes :
  (forall n, (1 <= n)%nat ->
             Shapes.CNN_forward (Shapes.mkNCHW n 3 32 32) = Some (n, 10%nat)) /\
  (forall x r c,
      Shapes.CNN_forward x = Some (r, c) ->
      r = Shapes.batch x /\ c = 10%nat /\ Shapes.channels x = 3%nat /\
      ((Shapes.height x / 2 / 2) * (Shapes.width x / 2 / 2) = 64)%nat) /\
  (forall n, Shapes.CNN_forward (Shapes.mkNCHW n 3 64 64) = None).
Proof.
  split; [|split].
  - intros n Hn; unfold Shapes.CNN_forward.
    do 5 forward_step.
    change (64 * 8 * 8)%nat with (64 * 8 * 8)%nat.
    rewrite linear_fits; shape_norm; apply linear_fits.
  - intros x r c H; unfold Shapes.CNN_forward in H; layers_inv H.
    layers_facts.
    destruct a3 as [r' c']; apply view_flat_some in Ha3; destruct Ha3 as [-> ->].
    cbn [fst snd Shapes.batch Shapes.channels Shapes.height Shapes.width] in *.
    match goal with Heq : (r, c) = _ |- _ => injection Heq as -> -> end.
    replace (Shapes.height x + 2 * 1 - 3 + 1)%nat with (Shapes.height x) in * by lia.
    replace (Shapes.width x + 2 * 1 - 3 + 1)%nat with (Shapes.width x) in * by lia.
    replace (Shapes.height x / 2 + 2 * 1 - 3 + 1)%nat with (Shapes.height x / 2)%nat
      in * by lia.
    replace (Shapes.width x / 2 + 2 * 1 - 3 + 1)%nat with (Shapes.width x / 2)%nat
      in * by lia.
    repeat split; [assumption|]; lia.
  - intro n; unfold Shapes.CNN_forward.
    do 4 forward_step.
    unfold Shapes.view_flat; shape_norm.
    destruct (n =? 0)%nat; [reflexivity|]; shape_norm.
    unfold Shapes.linear; cbn [snd].
    destruct (Nat.eqb_spec (64 * 16 * 16) (64 * 8 * 8)) as [Heq|]; [|reflexivity].
    exfalso; lia.
Qed.

(** X16.  [ComplexCNN.forward] on a batch of [n >= 1] images of 3x32x32
    gives [n] rows of 10 scores, in training and in evaluation: the
    residual has the size of the tensor it is added to.  Whenever it
    gives a size at all, the rows are as many as the images, with 10
    scores each, the images had 3 channels and 16 positions were left
    after the third pooling. *)
Theorem complex_cnn_sizes :
  (forall training n,
      (1 <= n)%nat ->
      Shapes.ComplexCNN_forward training (Shapes.mkNCHW n 3 32 32) = Some (n, 10%nat)) /\
  (forall training x r c,
      Shapes.ComplexCNN_forward training x = Some (r, c) ->
      r = Shapes.batch x /\ c = 10%nat /\ Shapes.channels x = 3%nat /\
      ((Shapes.height x / 2 / 2 / 2) * (Shapes.width x / 2 / 2 / 2) = 16)%nat).
Proof.
  split.
  - intros training n Hn; unfold Shapes.ComplexCNN_forward.
    do 18 forward_step.
    rewrite linear_fits; shape_norm; rewrite linear_fits; shape_norm; apply linear_fits.
  - intros training x r c H; unfold Shapes.ComplexCNN_forward in H; layers_inv H.
    repeat layer_fact.
    match goal with Heq : (r, c) = _ |- _ => injection Heq as -> -> end.
    repeat split; [assumption|]; lia.
Qed.

(** ** The split of the training data *)

(** X17.  For a data set whose length is a float (as every length below
    2^53 is), the two sizes handed to [random_split] are not negative and
    add up to the length: [int(0.8 * len(data))] never exceeds the
    length. *)
Theorem split_sizes_fit :
  forall (E : Env),
    Round64Laws E ->
    forall n : nat,
      round64 (inject_Z (Z.of_nat n)) == inject_Z (Z.of_nat n) ->
      (0 <= train_size n <= Z.of_nat n)%Z /\
      (0 <= val_size n)%Z /\
      (train_size n + val_size n = Z.of_nat n)%Z.
Proof.
  intros E RL n Hn.
  assert (Hr : 0 <= round64 (8 # 10) <= 1)
    by (apply round64_unit; split; discriminate).
  destruct Hr as [Hr0 Hr1].
  assert (Hz : (0 <= Z.of_nat n)%Z) by lia.
  assert (Hn0 : 0 <= inject_Z (Z.of_nat n))
    by (rewrite (Zle_Qle 0 (Z.of_nat n)) in Hz; exact Hz).
  assert (Hx : 0 <= round64 (round64 (8 # 10) * inject_Z (Z.of_nat n))
               <= inject_Z (Z.of_nat n)).
  { split.
    - rewrite <- round64_0; apply round64_mono.
      apply Qmult_le_0_compat; assumption.
    - rewrite <- Hn at 2; apply round64_mono.
      setoid_replace (inject_Z (Z.of_nat n)) with (1 * inject_Z (Z.of_nat n)) at 2
        by (rewrite Qmult_1_l; reflexivity).
      apply Qmult_le_compat_r; assumption. }
  destruct Hx as [Hx0 Hx1].
  assert (Ht : (0 <= train_size n <= Z.of_nat n)%Z).
  { unfold train_size, int_of_float.
    destruct (Qle_bool 0 (round64 (round64 (8 # 10) * inject_Z (Z.of_nat n)))) eqn:Hb.
    - split.
      + change 0%Z with (Qfloor 0); apply Qfloor_resp_le; exact Hx0.
      + apply Z.le_trans with (Qfloor (inject_Z (Z.of_nat n))).
        * apply Qfloor_resp_le; exact Hx1.
        * rewrite Qfloor_Z; apply Z.le_refl.
    - exfalso; apply Qle_bool_iff in Hx0; congruence. }
  unfold val_size; lia.
Qed.

(** A data set of 1000 images under the rounding of the small
    environment. *)
Lemma split_sizes_fit_witness :
  (0 <= @train_size (toy (fun _ => O)) 1000 <= 1000)%Z /\
  (0 <= @val_size (toy (fun _ => O)) 1000)%Z /\
  (@train_size (toy (fun _ => O)) 1000 + @val_size (toy (fun _ => O)) 1000 = 1000)%Z.
Proof.
  exact (@split_sizes_fit (toy (fun _ => O)) (toy_round64_laws _) 1000%nat
           ltac:(vm_compute; reflexivity)).
Defined.
